(** * Brasileirão exporters: a shallow embedding of [cbf-script.py] and [script.py]

    Both scripts fetch match data over HTTP, flatten every match into a
    record with a fixed set of fields, build a [pandas.DataFrame] from the
    records and write it with [to_csv].

    Modelling choices.
    - A Python [str] is the list of its code points ([pystr]); JSON numbers
      are integers (floating point is left out); a JSON object is an
      association list read by first match, which also keeps the insertion
      order that [pandas] uses for the column order.
    - A raised exception is the [Err] branch of [result]; code that also
      touches the outside world (files, log, standard output) lives in the
      state-and-error monad [prog] over [World].  The text of a log line or
      of a printed line is a fixed template around some data: an [event]
      keeps the data.
    - [requests], [pandas], [csv] and the codecs are libraries, not part
      of the scripts.  The parts of them that the scripts rely on are
      written out ([raise_for_status], the construction of a frame from a
      list of dicts, the text that [to_csv] writes, UTF-8); what depends on
      the Unicode database or on floating point ([str.lower], [str] of
      containers, [repr] of floats, the aggregations of the summary log)
      is a field of the class [Externals].  What the network and the clock
      answer during a run is the class [Environment].  The line terminator
      of [to_csv] is [os.linesep], fixed here to LF; failures of the file
      system other than a file standing where the output directory should
      be are left out. *)

From Stdlib Require Import ZArith NArith String Ascii DecimalString.
From Stdlib Require DecimalPos DecimalZ.
From stdpp Require Import base option list gmap.

Set Default Proof Using "Type".

(** ** Strings *)

(** A Python string, as the list of its code points. *)
Definition pystr := list N.

(** An ASCII literal as a Python string (used with 7-bit literals only). *)
Definition py (s : string) : pystr := N_of_ascii <$> list_ascii_of_string s.

(** [str(n)] for an [int]. *)
Definition str_of_Z (z : Z) : pystr := py (NilZero.string_of_int (Z.to_int z)).

(** [s.startswith(sub)], on the lists of code points. *)
Fixpoint startswith (s sub : pystr) : bool :=
  match sub, s with
  | [], _ => true
  | c :: sub', d :: s' => bool_decide (c = d) && startswith s' sub'
  | _ :: _, [] => false
  end.

(** [s.find(sub)]: the lowest index where [sub] occurs in [s], or [-1].
    [i] is the index of the head of [s] in the whole string. *)
Fixpoint find_from (i : Z) (s sub : pystr) : Z :=
  if startswith s sub then i
  else match s with
       | [] => (-1)%Z
       | _ :: s' => find_from (i + 1) s' sub
       end.

Definition str_find (s sub : pystr) : Z := find_from 0 s sub.

(** [sep.join(parts)]. *)
Fixpoint str_join (sep : pystr) (parts : list pystr) : pystr :=
  match parts with
  | [] => []
  | [p] => p
  | p :: ps => p ++ sep ++ str_join sep ps
  end.

(** [s.endswith(sub)]. *)
Definition endswith (s sub : pystr) : bool := startswith (reverse s) (reverse sub).

(** [os.path.join(a, b)] for a relative [b] (POSIX). *)
Definition path_join (a b : pystr) : pystr :=
  if bool_decide (a = []) then b
  else if endswith a (py "/") then a ++ b
  else a ++ py "/" ++ b.

(** ** JSON values, exceptions and results *)

#[warnings="-register-all"]
Inductive json :=
| JNull
| JBool (b : bool)
| JInt (n : Z)
| JStr (s : pystr)
| JList (l : list json)
| JDict (d : list (pystr * json)).

(** A Python [dict] with string keys, in insertion order. *)
Abbreviation pydict := (list (pystr * json)).

Inductive exn :=
| KeyError (k : pystr)
| TypeError
| AttributeError
| ValueError (msg : pystr)
| HTTPError (status : Z)
| TransportError (e : pystr)
| JSONDecodeError
| UnicodeEncodeError
| FileExistsError.

(** The exceptions of the class [requests.exceptions.RequestException]
    (the one of [response.json()] is of that class since requests 2.27). *)
Definition is_request_exception (e : exn) : bool :=
  match e with
  | HTTPError _ | TransportError _ | JSONDecodeError => true
  | _ => false
  end.

Inductive result (A : Type) :=
| Ok (a : A)
| Err (e : exn).
Arguments Ok {A} a.
Arguments Err {A} e.

#[global] Instance result_ret : MRet result := λ A a, Ok a.
#[global] Instance result_bind : MBind result := λ A B f m,
  match m with
  | Ok a => f a
  | Err e => Err e
  end.

(** [d[k]] on a dict: the value of the first entry with key [k]. *)
Fixpoint dict_get (d : pydict) (k : pystr) : option json :=
  match d with
  | [] => None
  | (k', v) :: d' => if bool_decide (k' = k) then Some v else dict_get d' k
  end.

Definition keys (d : pydict) : list pystr := fst <$> d.

(** [v[k]] with a string subscript: only a dict accepts it, and raises
    [KeyError] when the key is absent; lists and strings want integer
    indices, the other values are not subscriptable. *)
Definition getitem (v : json) (k : pystr) : result json :=
  match v with
  | JDict d => match dict_get d k with
               | Some x => Ok x
               | None => Err (KeyError k)
               end
  | _ => Err TypeError
  end.

(** [v[:n]]: a prefix of a string or of a list; [dict[:n]] raises
    [TypeError] (unhashable slice), the other values are not
    subscriptable. *)
Definition slice_to (n : nat) (v : json) : result json :=
  match v with
  | JStr s => Ok (JStr (take n s))
  | JList l => Ok (JList (take n l))
  | _ => Err TypeError
  end.

(** The items that [for x in v] runs through: the elements of a list, the
    keys of a dict, the characters of a string; the other values are not
    iterable. *)
Definition iterate (v : json) : result (list json) :=
  match v with
  | JList l => Ok l
  | JDict d => Ok (JStr <$> keys d)
  | JStr s => Ok ((λ c, JStr [c]) <$> s)
  | _ => Err TypeError
  end.

(** [len(v)]. *)
Definition len (v : json) : result Z :=
  match v with
  | JList l => Ok (Z.of_nat (length l))
  | JDict d => Ok (Z.of_nat (length d))
  | JStr s => Ok (Z.of_nat (length s))
  | _ => Err TypeError
  end.

(** [v == s] for a string [s]: values of another type are unequal. *)
Definition eq_str (v : json) (s : pystr) : bool :=
  match v with
  | JStr t => bool_decide (t = s)
  | _ => false
  end.

(** [for x in l: ...] collecting one result per item, stopping at the
    first exception. *)
Fixpoint for_each {A B} (f : A → result B) (l : list A) : result (list B) :=
  match l with
  | [] => Ok []
  | x :: l' => y ← f x; ys ← for_each f l'; Ok (y :: ys)
  end.

(** [d.get(k, default)]: a method of dicts only. *)
Definition dict_method_get (v : json) (k : pystr) (dflt : json) : result json :=
  match v with
  | JDict d => Ok (default dflt (dict_get d k))
  | _ => Err AttributeError
  end.

(** ** The outside world *)

(** What the scripts log or print; the text of each message is a fixed
    template around the data kept here. *)
Inductive message :=
| FetchingCompetitionId (year : Z)
| FetchingMatches
| Retrieved (n : Z)
| ProcessingMatches
| Exported (filepath : pystr)
| SummaryHeader
| TotalMatches (n : Z)
| DateRange (txt : pystr)
| TotalTeams (n : Z)
| TotalGoals (txt : pystr)
| AverageAttendance (txt : pystr)
| ApiRequestFailed (e : exn)
| ExportFailed (e : exn)
| ExportCompleted
| FileSavedTo (filepath : pystr)
| ErrorDuringExport (e : exn)
| ErroApi (status : Z)
| ArquivoCriado (ano : Z).

Inductive event :=
| LogInfo (m : message)
| LogError (m : message)
| Print (m : message).

(** Files by path with their bytes, the directories made, and the events
    emitted so far (oldest first). *)
Record World := mkWorld {
  files : gmap pystr (list N);
  dirs : gset pystr;
  out : list event
}.

(** A computation that may change the world and may raise. *)
Definition prog (A : Type) : Type := World → World * result A.

#[global] Instance prog_ret : MRet prog := λ A a w, (w, Ok a).
#[global] Instance prog_bind : MBind prog := λ A B f m w,
  match m w with
  | (w', Ok a) => f a w'
  | (w', Err e) => (w', Err e)
  end.

Definition lift {A} (r : result A) : prog A := λ w, (w, r).

Definition raise {A} (e : exn) : prog A := λ w, (w, Err e).

Definition emit (ev : event) : prog () :=
  λ w, (mkWorld (files w) (dirs w) (out w ++ [ev]), Ok ()).

(** [try: body except Exception as e: handler(e)]. *)
Definition try_except {A} (body : prog A) (handler : exn → prog A) : prog A :=
  λ w, match body w with
       | (w', Ok a) => (w', Ok a)
       | (w', Err e) => handler e w'
       end.

(** [os.makedirs(d, exist_ok=True)]: fails when [d] is an existing file. *)
Definition makedirs (d : pystr) : prog () :=
  λ w, match files w !! d with
       | Some _ => (w, Err FileExistsError)
       | None => (mkWorld (files w) ({[d]} ∪ dirs w) (out w), Ok ())
       end.

(** ** HTTP *)

Record Response := mkResponse {
  status_code : Z;
  (** what [response.json()] gives: the decoded body, or the exception of
      a body that is not JSON *)
  json_body : result json
}.

(** [response.raise_for_status()]: raises for the 4xx and 5xx codes. *)
Definition raise_for_status (r : Response) : result () :=
  if bool_decide (400 ≤ status_code r < 600)%Z then Err (HTTPError (status_code r))
  else Ok ().

(** ** UTF-8 *)

Inductive encoding := UTF8 | UTF8_SIG.

(** The bytes of one code point; surrogates cannot be encoded. *)
Definition utf8_char (c : N) : option (list N) :=
  if (c <? 0x80)%N then Some [c]
  else if (c <? 0x800)%N then Some [0xC0 + c / 64; 0x80 + c mod 64]%N
  else if (c <? 0x10000)%N then
    if ((0xD800 <=? c) && (c <? 0xE000))%N then None
    else Some [0xE0 + c / 4096; 0x80 + (c / 64) mod 64; 0x80 + c mod 64]%N
  else if (c <? 0x110000)%N then
    Some [0xF0 + c / 262144; 0x80 + (c / 4096) mod 64;
          0x80 + (c / 64) mod 64; 0x80 + c mod 64]%N
  else None.

Fixpoint utf8_encode (s : pystr) : option (list N) :=
  match s with
  | [] => Some []
  | c :: s' => b ← utf8_char c; bs ← utf8_encode s'; Some (b ++ bs)
  end.

(** The byte order mark that [utf-8-sig] puts in front. *)
Definition bom (enc : encoding) : list N :=
  match enc with
  | UTF8 => []
  | UTF8_SIG => [0xEF; 0xBB; 0xBF]%N
  end.

(** The lines reach the file one [write] call each: a line that cannot be
    encoded raises and leaves the lines before it in the file. *)
Fixpoint write_lines (acc : list N) (lines : list pystr) : list N * result () :=
  match lines with
  | [] => (acc, Ok ())
  | l :: ls => match utf8_encode l with
               | Some b => write_lines (acc ++ b) ls
               | None => (acc, Err UnicodeEncodeError)
               end
  end.

(** The mark goes out with the first line that is encoded. *)
Definition write_text (enc : encoding) (lines : list pystr) : list N * result () :=
  match lines with
  | [] => ([], Ok ())
  | l :: ls => match utf8_encode l with
               | Some b => write_lines (bom enc ++ b) ls
               | None => ([], Err UnicodeEncodeError)
               end
  end.

(** ** CSV text *)

Definition COMMA : N := 44.
Definition QUOTE : N := 34.
Definition LF : N := 10.

(** A field holding one of these is quoted ([csv.QUOTE_MINIMAL]): the
    delimiter, the quote character and the characters of the line
    terminator. *)
Definition special (c : N) : bool :=
  bool_decide (c = COMMA) || bool_decide (c = QUOTE) || bool_decide (c = LF).

Definition double_quotes (f : pystr) : pystr :=
  c ← f; if bool_decide (c = QUOTE) then [QUOTE; QUOTE] else [c].

Definition csv_field (f : pystr) : pystr :=
  if existsb special f then QUOTE :: double_quotes f ++ [QUOTE] else f.

(** One row of text; a row made of a single empty field is written as a
    pair of quotes, so that it differs from a row of no field. *)
Definition csv_line (fields : list pystr) : pystr :=
  match fields with
  | [[]] => [QUOTE; QUOTE; LF]
  | _ => str_join [COMMA] (csv_field <$> fields) ++ [LF]
  end.

(** ** Data frames *)

(** A table: the column names, and one list of cells per row, in column
    order.  A cell that a record does not provide is [JNull] (NaN). *)
Record DataFrame := mkFrame {
  columns : list pystr;
  rows : list (list json)
}.

(** The keys in the order in which they are first seen. *)
Fixpoint first_seen (seen ks : list pystr) : list pystr :=
  match ks with
  | [] => []
  | k :: ks' => if bool_decide (k ∈ seen) then first_seen seen ks'
                else k :: first_seen (k :: seen) ks'
  end.

(** [pd.DataFrame(records)] for a list of dicts: the columns are the keys
    of the records in first-seen order, so there is none when there is no
    record. *)
Definition pd_DataFrame (records : list pydict) : DataFrame :=
  let cols := first_seen [] (records ≫= keys) in
  mkFrame cols ((λ r, (λ c, default JNull (dict_get r c)) <$> cols) <$> records).

Definition column_at (df : DataFrame) (j : nat) : list json :=
  (λ r, default JNull (r !! j)) <$> rows df.

(** [df[c]]: the cells of the column named [c]. *)
Definition frame_getitem (df : DataFrame) (c : pystr) : result (list json) :=
  match list_find (λ c', c' = c) (columns df) with
  | Some (j, _) => Ok (column_at df j)
  | None => Err (KeyError c)
  end.

Definition is_null (v : json) : bool := match v with JNull => true | _ => false end.
Definition is_int (v : json) : bool := match v with JInt _ => true | _ => false end.

(** Integers (of the range of [int64]) next to missing values and nothing
    else make a [float64] column. *)
Definition float_column (cells : list json) : bool :=
  existsb is_null cells && existsb is_int cells
  && forallb (λ v, is_null v || is_int v) cells.

(** What the scripts take from the libraries without our writing it out. *)
Class Externals := {
  (** [str.lower] *)
  str_lower : pystr → pystr;
  (** [str] of a list or of a dict *)
  str_container : json → pystr;
  (** [repr(float(n))] *)
  float_repr : Z → pystr;
  (** [f"{c.min()} to {c.max()}"] for a column [c] *)
  date_range : list json → result pystr;
  (** [len(set(a.unique()) | set(b.unique()))] *)
  total_teams : list json → list json → result Z;
  (** [f"{a.sum() + b.sum()}"] *)
  total_goals : list json → list json → result pystr;
  (** [f"{c.mean():.0f}"] *)
  mean_attendance : list json → result pystr
}.

(** What the network and the clock answer during one run. *)
Class Environment := {
  (** [requests.get(url, headers=headers)] *)
  http_get : pystr → list (pystr * pystr) → result Response;
  (** [datetime.now().strftime("%Y%m%d_%H%M%S")] *)
  now_stamp : pystr
}.

Section Writer.
Context `{Externals}.

(** [format(v)] inside an f-string. *)
Definition format_value (v : json) : pystr :=
  match v with
  | JNull => py "None"
  | JBool b => if b then py "True" else py "False"
  | JInt n => str_of_Z n
  | JStr s => s
  | _ => str_container v
  end.

(** The text of a cell; [fl] tells whether its column is [float64]. *)
Definition cell_text (fl : bool) (v : json) : pystr :=
  match v with
  | JNull => []
  | JInt n => if fl then float_repr n else str_of_Z n
  | _ => format_value v
  end.

Definition row_text (df : DataFrame) (r : list json) : list pystr :=
  imap (λ j v, cell_text (float_column (column_at df j)) v) r.

(** The lines of [df.to_csv(index=False)]: the header, then the rows. *)
Definition csv_lines (df : DataFrame) : list pystr :=
  csv_line (columns df) :: (csv_line ∘ row_text df <$> rows df).

(** [df.to_csv(path, index=False, encoding=enc)]: the file is opened
    (created or truncated) and the lines are written. *)
Definition to_csv (df : DataFrame) (path : pystr) (enc : encoding) : prog () :=
  λ w, let '(bytes, r) := write_text enc (csv_lines df) in
       (mkWorld (<[path := bytes]> (files w)) (dirs w) (out w), r).
End Writer.

(** ** First variant: [cbf-script.py] *)

Module CBF.
Section Exporter.
Context `{Externals} `{Environment}.

Record CBFDataExporter := mkExporter {
  base_url : pystr;
  api_key : pystr;
  headers : list (pystr * pystr)
}.

Definition __init__ (key : pystr) : CBFDataExporter :=
  mkExporter (py "https://api.cbf.com.br/v1") key
    [(py "Authorization", py "Bearer " ++ key);
     (py "Accept", py "application/json")].

(** The test of the loop of [get_competition_id]; [and] evaluates its
    right operand only when the left one holds. *)
Definition is_serie_a (year : Z) (comp : json) : result bool :=
  name ← getitem comp (py "name");
  low ← match name with
        | JStr s => Ok (str_lower s)
        | _ => Err AttributeError
        end;
  if bool_decide (str_find low (py "brasileiro") ≠ (-1)%Z) then
    series ← getitem comp (py "series");
    if eq_str series (py "A") then
      season ← getitem comp (py "season");
      Ok (eq_str season (str_of_Z year))
    else Ok false
  else Ok false.

Fixpoint find_competition (year : Z) (competitions : list json) : result json :=
  match competitions with
  | [] => Err (ValueError (py "Competition not found for year " ++ str_of_Z year))
  | comp :: rest =>
      hit ← is_serie_a year comp;
      if hit : bool then getitem comp (py "id") else find_competition year rest
  end.

Definition get_competition_id (self : CBFDataExporter) (year : Z) : result json :=
  let url := base_url self ++ py "/competitions" in
  response ← http_get url (headers self);
  raise_for_status response;;
  competitions ← json_body response;
  comps ← iterate competitions;
  find_competition year comps.

(** The address that [get_matches] asks. *)
Definition matches_url (self : CBFDataExporter) (competition_id : json) : pystr :=
  base_url self ++ py "/competitions/" ++ format_value competition_id
  ++ py "/matches".

Definition get_matches (self : CBFDataExporter) (competition_id : json) : prog json :=
  let url := matches_url self competition_id in
  response ← lift (http_get url (headers self));
  lift (raise_for_status response);;
  matches ← lift (json_body response);
  n ← lift (len matches);
  emit (LogInfo (Retrieved n));;
  mret matches.

(** The body of the loop of [process_matches]: the dict display is
    evaluated entry by entry, in this order. *)
Definition process_match (match_ : json) : result pydict :=
  date ← getitem match_ (py "date");
  round ← getitem match_ (py "round");
  home_team ← getitem match_ (py "home_team");
  time_casa ← getitem home_team (py "name");
  away_team ← getitem match_ (py "away_team");
  time_visitante ← getitem away_team (py "name");
  gols_casa ← getitem match_ (py "home_score");
  gols_visitante ← getitem match_ (py "away_score");
  stadium ← getitem match_ (py "stadium");
  estadio ← getitem stadium (py "name");
  stadium ← getitem match_ (py "stadium");
  cidade ← getitem stadium (py "city");
  stadium ← getitem match_ (py "stadium");
  estado ← getitem stadium (py "state");
  referee ← getitem match_ (py "referee");
  arbitro ← getitem referee (py "name");
  publico ← getitem match_ (py "attendance");
  renda ← getitem match_ (py "revenue");
  Ok [(py "data", date);
      (py "rodada", round);
      (py "time_casa", time_casa);
      (py "time_visitante", time_visitante);
      (py "gols_casa", gols_casa);
      (py "gols_visitante", gols_visitante);
      (py "estadio", estadio);
      (py "cidade", cidade);
      (py "estado", estado);
      (py "arbitro", arbitro);
      (py "publico", publico);
      (py "renda", renda)].

(** The list [processed_matches] at the end of the loop. *)
Definition processed_matches (matches : json) : result (list pydict) :=
  items ← iterate matches;
  for_each process_match items.

Definition process_matches (matches : json) : result DataFrame :=
  records ← processed_matches matches;
  Ok (pd_DataFrame records).

Definition _log_export_summary (df : DataFrame) : prog () :=
  emit (LogInfo SummaryHeader);;
  emit (LogInfo (TotalMatches (Z.of_nat (length (rows df)))));;
  data ← lift (frame_getitem df (py "data"));
  range ← lift (date_range data);
  emit (LogInfo (DateRange range));;
  casa ← lift (frame_getitem df (py "time_casa"));
  visitante ← lift (frame_getitem df (py "time_visitante"));
  teams ← lift (total_teams casa visitante);
  emit (LogInfo (TotalTeams teams));;
  gols_casa ← lift (frame_getitem df (py "gols_casa"));
  gols_visitante ← lift (frame_getitem df (py "gols_visitante"));
  goals ← lift (total_goals gols_casa gols_visitante);
  emit (LogInfo (TotalGoals goals));;
  publico ← lift (frame_getitem df (py "publico"));
  mean ← lift (mean_attendance publico);
  emit (LogInfo (AverageAttendance mean)).

(** The name of the file that [export_season] writes. *)
Definition export_path (year : Z) (output_dir : pystr) : pystr :=
  path_join output_dir
    (py "brasileirao_" ++ str_of_Z year ++ py "_" ++ now_stamp ++ py ".csv").

Definition export_season (self : CBFDataExporter) (year : Z) (output_dir : pystr)
  : prog pystr :=
  try_except
    (makedirs output_dir;;
     emit (LogInfo (FetchingCompetitionId year));;
     competition_id ← lift (get_competition_id self year);
     emit (LogInfo FetchingMatches);;
     matches ← get_matches self competition_id;
     emit (LogInfo ProcessingMatches);;
     df ← lift (process_matches matches);
     let filepath := export_path year output_dir in
     to_csv df filepath UTF8;;
     emit (LogInfo (Exported filepath));;
     _log_export_summary df;;
     mret filepath)
    (λ e, if is_request_exception e
          then emit (LogError (ApiRequestFailed e));; raise e
          else emit (LogError (ExportFailed e));; raise e).

Definition API_KEY : pystr := py "your_cbf_api_key_here".

Definition main : prog () :=
  try_except
    (let exporter := __init__ API_KEY in
     output_file ← export_season exporter 2023 (py "exports");
     emit (Print ExportCompleted);;
     emit (Print (FileSavedTo output_file)))
    (λ e, emit (Print (ErrorDuringExport e))).
End Exporter.
End CBF.

(** ** Second variant: [script.py] *)

Module Script.
Section Exporter.
Context `{Externals} `{Environment}.

Definition API_KEY : pystr := [].

(** The body of the loop of [obter_jogos_brasileirao]. *)
Definition processar_jogo (jogo : json) : result pydict :=
  fixture ← getitem jogo (py "fixture");
  date ← getitem fixture (py "date");
  data ← slice_to 10 date;
  teams ← getitem jogo (py "teams");
  home ← getitem teams (py "home");
  time_casa ← getitem home (py "name");
  teams ← getitem jogo (py "teams");
  away ← getitem teams (py "away");
  time_visitante ← getitem away (py "name");
  goals ← getitem jogo (py "goals");
  placar_casa ← getitem goals (py "home");
  goals ← getitem jogo (py "goals");
  placar_visitante ← getitem goals (py "away");
  fixture ← getitem jogo (py "fixture");
  venue ← getitem fixture (py "venue");
  estadio ← getitem venue (py "name");
  Ok [(py "Data", data);
      (py "Time Casa", time_casa);
      (py "Time Visitante", time_visitante);
      (py "Placar Casa", placar_casa);
      (py "Placar Visitante", placar_visitante);
      (py "Est" ++ [225%N] ++ py "dio", estadio)].

(** The list [lista_jogos] at the end of the loop. *)
Definition lista_jogos (jogos : json) : result (list pydict) :=
  items ← iterate jogos;
  for_each processar_jogo items.

Definition csv_path (ano : Z) : pystr :=
  py "jogos_brasileirao_" ++ str_of_Z ano ++ py ".csv".

Definition fixtures_url (ano : Z) : pystr :=
  py "https://v3.football.api-sports.io/fixtures?league=71&season=" ++ str_of_Z ano.

Definition fixtures_headers : list (pystr * pystr) := [(py "x-apisports-key", API_KEY)].

(** [return] without a value and the end of the body give [None],
    here [JNull]. *)
Definition obter_jogos_brasileirao (ano : Z) : prog json :=
  let url := fixtures_url ano in
  let headers := fixtures_headers in
  response ← lift (http_get url headers);
  if bool_decide (status_code response ≠ 200%Z) then
    emit (Print (ErroApi (status_code response)));;
    mret JNull
  else
    body ← lift (json_body response);
    jogos ← lift (dict_method_get body (py "response") (JList []));
    records ← lift (lista_jogos jogos);
    let df := pd_DataFrame records in
    to_csv df (csv_path ano) UTF8_SIG;;
    emit (Print (ArquivoCriado ano));;
    mret JNull.

(** The module calls the function when it is run. *)
Definition main : prog json := obter_jogos_brasileirao 2023.
End Exporter.
End Script.

(** ** The mappers as tables

    Each mapper reads a fixed list of fields, each by a path of keys into
    the raw record.  [flatten] is that reading driven by a table; the two
    mappers are shown below to be instances of it, failures included. *)

(** [v[k1][k2]...] *)
Fixpoint lookup_path (v : json) (path : list pystr) : result json :=
  match path with
  | [] => Ok v
  | k :: path' => x ← getitem v k; lookup_path x path'
  end.

(** A field of the flat record: its name, the path of its value in the raw
    record, and what is done to the value. *)
Record field := mkField {
  fname : pystr;
  fpath : list pystr;
  fconv : json → result json
}.

Definition extract (m : json) (f : field) : result (pystr * json) :=
  v ← lookup_path m (fpath f);
  x ← fconv f v;
  Ok (fname f, x).

Definition flatten (table : list field) (m : json) : result pydict :=
  for_each (extract m) table.

(** Lines 90 to 101 of [cbf-script.py]. *)
Definition cbf_table : list field :=
  [mkField (py "data") [py "date"] Ok;
   mkField (py "rodada") [py "round"] Ok;
   mkField (py "time_casa") [py "home_team"; py "name"] Ok;
   mkField (py "time_visitante") [py "away_team"; py "name"] Ok;
   mkField (py "gols_casa") [py "home_score"] Ok;
   mkField (py "gols_visitante") [py "away_score"] Ok;
   mkField (py "estadio") [py "stadium"; py "name"] Ok;
   mkField (py "cidade") [py "stadium"; py "city"] Ok;
   mkField (py "estado") [py "stadium"; py "state"] Ok;
   mkField (py "arbitro") [py "referee"; py "name"] Ok;
   mkField (py "publico") [py "attendance"] Ok;
   mkField (py "renda") [py "revenue"] Ok].

(** Lines 20 to 34 of [script.py]. *)
Definition script_table : list field :=
  [mkField (py "Data") [py "fixture"; py "date"] (slice_to 10);
   mkField (py "Time Casa") [py "teams"; py "home"; py "name"] Ok;
   mkField (py "Time Visitante") [py "teams"; py "away"; py "name"] Ok;
   mkField (py "Placar Casa") [py "goals"; py "home"] Ok;
   mkField (py "Placar Visitante") [py "goals"; py "away"] Ok;
   mkField (py "Est" ++ [225%N] ++ py "dio") [py "fixture"; py "venue"; py "name"] Ok].

(** The raw record provides every field of the table. *)
Definition complete (table : list field) (m : json) : Prop :=
  Forall (λ f, ∃ v x, lookup_path m (fpath f) = Ok v ∧ fconv f v = Ok x) table.

(** ** Samples of the parameters, for the examples *)

(** [str.lower] on ASCII text. *)
Definition ascii_lower (s : pystr) : pystr :=
  (λ c, if ((65 <=? c) && (c <=? 90))%N then (c + 32)%N else c) <$> s.

(** Externals for the examples: [str.lower] and the text of a float are
    exact on ASCII text and on integers below 10^16; the text of a
    container and the aggregations of the summary are stand-ins, on which
    no statement below depends (they only reach the log). *)
Definition sample_externals : Externals := {|
  str_lower := ascii_lower;
  str_container := λ _, py "<container>";
  float_repr := λ n, str_of_Z n ++ py ".0";
  date_range := λ _, Ok (py "<range>");
  total_teams := λ _ _, Ok 0%Z;
  total_goals := λ _ _, Ok (py "<goals>");
  mean_attendance := λ _, Ok (py "<mean>")
|}.

Definition empty_world : World := mkWorld ∅ ∅ [].

(** ** Notions of the specification *)

(** [sub] occurs in [s]. *)
Definition contains (s sub : pystr) : Prop := ∃ pre post, s = pre ++ sub ++ post.

(** [c] is a competition object with these four fields, the name being a
    string. *)
Definition competition (name : pystr) (series season id : json) (c : json) : Prop :=
  getitem c (py "name") = Ok (JStr name)
  ∧ getitem c (py "series") = Ok series
  ∧ getitem c (py "season") = Ok season
  ∧ getitem c (py "id") = Ok id.

(** The three conditions of the Resolver, on the competition as it is: the
    lowercased name contains the keyword, the series is "A", the season is
    the year as a string. *)
Definition meets_conditions `{Externals} (year : Z) (c : json) : Prop :=
  ∃ name,
    getitem c (py "name") = Ok (JStr name)
    ∧ contains (str_lower name) (py "brasileiro")
    ∧ getitem c (py "series") = Ok (JStr (py "A"))
    ∧ getitem c (py "season") = Ok (JStr (str_of_Z year)).

(** The three conditions can be told of [c]: it has a name that is a
    string, a series when the name has the keyword, and a season when the
    series is "A". *)
Definition testable `{Externals} (c : json) : Prop :=
  ∃ name,
    getitem c (py "name") = Ok (JStr name)
    ∧ (contains (str_lower name) (py "brasileiro") →
       ∃ series,
         getitem c (py "series") = Ok series
         ∧ (series = JStr (py "A") → ∃ season, getitem c (py "season") = Ok season)).

(** What the Resolver, the Fetcher and the Mapper of [export_season] hand
    to the Writer, the log apart. *)
Definition exported_frame `{Externals} `{Environment}
    (self : CBF.CBFDataExporter) (year : Z) : result DataFrame :=
  competition_id ← CBF.get_competition_id self year;
  response ← http_get (CBF.matches_url self competition_id) (CBF.headers self);
  raise_for_status response;;
  matches ← json_body response;
  len matches;;
  CBF.process_matches matches.

(** A computation that leaves the files as they are. *)
Definition keeps_files {A} (m : prog A) : Prop := ∀ w, files (m w).1 = files w.

Definition is_object (v : json) : Prop := ∃ d, v = JDict d.

(** A raw match of the first variant in which the record itself and the
    team, stadium and referee values that it has are objects. *)
Definition nested_objects (m : json) : Prop :=
  is_object m
  ∧ ∀ k v, k ∈ [py "home_team"; py "away_team"; py "stadium"; py "referee"] →
           getitem m k = Ok v → is_object v.

(** The fixture of the example of section 8 of the specification, in the
    shape that [script.py] reads. *)
Definition flamengo_palmeiras : json :=
  JDict [(py "fixture",
          JDict [(py "date", JStr (py "2023-04-15"));
                 (py "venue", JDict [(py "name", JStr (py "Maracan" ++ [227%N]))])]);
         (py "teams",
          JDict [(py "home", JDict [(py "name", JStr (py "Flamengo"))]);
                 (py "away", JDict [(py "name", JStr (py "Palmeiras"))])]);
         (py "goals", JDict [(py "home", JInt 2); (py "away", JInt 1)])].

(** The same fixture with the time of day in its date, as the API sends it. *)
Definition flamengo_palmeiras_timed : json :=
  JDict [(py "fixture",
          JDict [(py "date", JStr (py "2023-04-15T16:00:00-03:00"));
                 (py "venue", JDict [(py "name", JStr (py "Maracan" ++ [227%N]))])]);
         (py "teams",
          JDict [(py "home", JDict [(py "name", JStr (py "Flamengo"))]);
                 (py "away", JDict [(py "name", JStr (py "Palmeiras"))])]);
         (py "goals", JDict [(py "home", JInt 2); (py "away", JInt 1)])].

(** A match in the shape that [cbf-script.py] reads; [referee] and the last
    two entries vary in the examples. *)
Definition cbf_match (referee : json) (rest : pydict) : json :=
  JDict ([(py "date", JStr (py "2023-04-15"));
          (py "round", JInt 1);
          (py "home_team", JDict [(py "name", JStr (py "Flamengo"))]);
          (py "away_team", JDict [(py "name", JStr (py "Palmeiras"))]);
          (py "home_score", JInt 2);
          (py "away_score", JInt 1);
          (py "stadium", JDict [(py "name", JStr (py "Maracan" ++ [227%N]));
                                (py "city", JStr (py "Rio de Janeiro"));
                                (py "state", JStr (py "RJ"))]);
          (py "referee", referee)] ++ rest).

Definition complete_match : json :=
  cbf_match (JDict [(py "name", JStr (py "Anderson Daronco"))])
            [(py "attendance", JInt 60000); (py "revenue", JInt 3500000)].

(** No [revenue], and a referee still to be named. *)
Definition match_without_revenue : json :=
  cbf_match JNull [(py "attendance", JInt 60000)].

(** No [revenue]; the rest is as in [complete_match]. *)
Definition match_missing_key : json :=
  cbf_match (JDict [(py "name", JStr (py "Anderson Daronco"))])
            [(py "attendance", JInt 60000)].

Definition serie_a (season : pystr) (id : pystr) : json :=
  JDict [(py "id", JStr id);
         (py "name", JStr (py "Campeonato Brasileiro"));
         (py "series", JStr (py "A"));
         (py "season", JStr season)].

(** A competition of the season 2023 whose name is [null]. *)
Definition unnamed_competition : json :=
  JDict [(py "id", JStr (py "br0"));
         (py "name", JNull);
         (py "series", JStr (py "A"));
         (py "season", JStr (py "2023"))].

Definition listing : json := JList [serie_a (py "2022") (py "br22"); serie_a (py "2023") (py "br23")].

Definition sample_exporter : CBF.CBFDataExporter := CBF.__init__ CBF.API_KEY.

(** A network that answers the listing with [competitions] and any other
    address with [matches]. *)
Definition cbf_network (competitions matches : Response) : Environment := {|
  http_get := λ url _,
    if bool_decide (url = CBF.base_url sample_exporter ++ py "/competitions")
    then Ok competitions else Ok matches;
  now_stamp := py "20230415_210000"
|}.

(** A network that answers every address with [fixtures]. *)
Definition script_network (fixtures : Response) : Environment := {|
  http_get := λ _ _, Ok fixtures;
  now_stamp := py "20230415_210000"
|}.

Definition ok_listing : Response := mkResponse 200 (Ok listing).

(** The flat record of [flamengo_palmeiras]. *)
Definition example_record : pydict :=
  [(py "Data", JStr (py "2023-04-15"));
   (py "Time Casa", JStr (py "Flamengo"));
   (py "Time Visitante", JStr (py "Palmeiras"));
   (py "Placar Casa", JInt 2);
   (py "Placar Visitante", JInt 1);
   (py "Est" ++ [225%N] ++ py "dio", JStr (py "Maracan" ++ [227%N]))].

(** ** Reading a file back

    The scripts only write.  The reader below is the inverse that the
    round-trip property of section 8 of the specification speaks of. *)

(** A continuation byte of UTF-8. *)
Definition is_cont (b : N) : bool := ((0x80 <=? b) && (b <? 0xC0))%N.

(** Modelled from the spec: the decoder that is missing for "values
    written to CSV and re-read"; strict UTF-8 (shortest form, no
    surrogate, nothing above U+10FFFF). *)
Fixpoint utf8_decode (bs : list N) : option pystr :=
  match bs with
  | [] => Some []
  | b0 :: r0 =>
      if (b0 <? 0x80)%N then (b0 ::.) <$> utf8_decode r0
      else if (b0 <? 0xC2)%N then None
      else if (b0 <? 0xE0)%N then
        match r0 with
        | b1 :: r1 =>
            if is_cont b1
            then (((b0 - 0xC0) * 64 + (b1 - 0x80))%N ::.) <$> utf8_decode r1
            else None
        | _ => None
        end
      else if (b0 <? 0xF0)%N then
        match r0 with
        | b1 :: b2 :: r2 =>
            let c := ((b0 - 0xE0) * 4096 + (b1 - 0x80) * 64 + (b2 - 0x80))%N in
            if is_cont b1 && is_cont b2 && (0x800 <=? c)%N
               && negb ((0xD800 <=? c) && (c <? 0xE000))%N
            then (c ::.) <$> utf8_decode r2
            else None
        | _ => None
        end
      else if (b0 <? 0xF5)%N then
        match r0 with
        | b1 :: b2 :: b3 :: r3 =>
            let c := ((b0 - 0xF0) * 262144 + (b1 - 0x80) * 4096
                      + (b2 - 0x80) * 64 + (b3 - 0x80))%N in
            if is_cont b1 && is_cont b2 && is_cont b3
               && (0x10000 <=? c)%N && (c <? 0x110000)%N
            then (c ::.) <$> utf8_decode r3
            else None
        | _ => None
        end
      else None
  end.

(** Modelled from the spec: [utf-8-sig] drops the mark when it is there. *)
Definition decode (enc : encoding) (bs : list N) : option pystr :=
  match enc, bs with
  | UTF8_SIG, 0xEF%N :: 0xBB%N :: 0xBF%N :: bs' => utf8_decode bs'
  | _, _ => utf8_decode bs
  end.

(** Where the reader stands: at the start of a row, at the start of a
    field after a comma, inside a field, inside a quoted field, or after
    a quote met inside a quoted field. *)
Inductive mode := RowStart | FieldStart | Unquoted | Quoted | QuoteSeen.

(** Modelled from the spec: the reader that is missing for "values written
    to CSV and re-read", for the dialect that [to_csv] writes (comma,
    double quote doubled inside quoted fields, rows ended by LF).  [field]
    and [row] are what has been read of the current field and row. *)
Fixpoint read_rows (m : mode) (field : pystr) (row : list pystr) (text : pystr)
  : option (list (list pystr)) :=
  match text with
  | [] => match m with RowStart => Some [] | _ => None end
  | c :: text' =>
      match m with
      | RowStart | FieldStart =>
          if bool_decide (c = LF) then
            (match m with RowStart => row | _ => row ++ [[]] end ::.)
            <$> read_rows RowStart [] [] text'
          else if bool_decide (c = COMMA) then read_rows FieldStart [] (row ++ [[]]) text'
          else if bool_decide (c = QUOTE) then read_rows Quoted [] row text'
          else read_rows Unquoted [c] row text'
      | Unquoted =>
          if bool_decide (c = LF) then
            (row ++ [field] ::.) <$> read_rows RowStart [] [] text'
          else if bool_decide (c = COMMA) then read_rows FieldStart [] (row ++ [field]) text'
          else read_rows Unquoted (field ++ [c]) row text'
      | Quoted =>
          if bool_decide (c = QUOTE) then read_rows QuoteSeen field row text'
          else read_rows Quoted (field ++ [c]) row text'
      | QuoteSeen =>
          if bool_decide (c = LF) then
            (row ++ [field] ::.) <$> read_rows RowStart [] [] text'
          else if bool_decide (c = COMMA) then read_rows FieldStart [] (row ++ [field]) text'
          else if bool_decide (c = QUOTE) then read_rows Quoted (field ++ [QUOTE]) row text'
          else None
      end
  end.

Definition read_csv (text : pystr) : option (list (list pystr)) :=
  read_rows RowStart [] [] text.

(** The table that a file holds: the header, then the rows. *)
Definition read_file (enc : encoding) (bytes : list N) : option (list (list pystr)) :=
  text ← decode enc bytes; read_csv text.

(** A code point that UTF-8 can encode. *)
Definition scalar_value (c : N) : Prop :=
  (c < 0x110000)%N ∧ ¬ (0xD800 ≤ c < 0xE000)%N.

(** A field that needs no quoting. *)
Definition plain (f : pystr) : Prop := Forall (λ c, special c = false) f.

(** What the reader does once a field and the character after it are
    read: a comma opens the next field, a line terminator ends the row. *)
Definition after_field (t : N) (row : list pystr) (f : pystr) (rest : pystr)
  : option (list (list pystr)) :=
  if bool_decide (t = LF) then (row ++ [f] ::.) <$> read_rows RowStart [] [] rest
  else read_rows FieldStart [] (row ++ [f]) rest.

(** The table of text that [to_csv] writes for a frame: the header, then
    the text of the cells of each row. *)
Definition table_of `{Externals} (df : DataFrame) : list (list pystr) :=
  columns df :: (row_text df <$> rows df).

(** ** Notions for the properties of the runs *)

(** From [w] to [w'] no file but the one at [path] has changed, no
    directory is gone and the log has only grown. *)
Definition changes_only (path : pystr) (w w' : World) : Prop :=
  (∀ p, p ≠ path → files w' !! p = files w !! p)
  ∧ dirs w ⊆ dirs w'
  ∧ out w `prefix_of` out w'.

(** A computation whose every run relates the world before to the world
    after. *)
Definition respects {A} (R : World → World → Prop) (m : prog A) : Prop :=
  ∀ w, R w (m w).1.

(** The line that the handlers of [export_season] log for an exception:
    "API request failed" for the exceptions of [requests], "Export failed"
    for the others. *)
Definition error_line (e : exn) : event :=
  LogError (if is_request_exception e then ApiRequestFailed e else ExportFailed e).

(** [w] with more events in its log. *)
Definition logged (w : World) (evs : list event) : World :=
  mkWorld (files w) (dirs w) (out w ++ evs).

(** The keys that [process_matches] reads in a match, and those that
    [obter_jogos_brasileirao] reads in a fixture. *)
Definition cbf_keys : list pystr :=
  [py "date"; py "round"; py "home_team"; py "away_team"; py "home_score";
   py "away_score"; py "stadium"; py "referee"; py "attendance"; py "revenue"].

Definition script_keys : list pystr := [py "fixture"; py "teams"; py "goals"].

(** ** Answers of the network for the examples of the runs *)

Definition one_match : Response := mkResponse 200 (Ok (JList [complete_match])).

Definition no_match : Response := mkResponse 200 (Ok (JList [])).

Definition not_found : Response := mkResponse 404 (Err JSONDecodeError).

(** [complete_match] with one more entry, which the Mapper does not read. *)
Definition complete_match_with_weather : json :=
  cbf_match (JDict [(py "name", JStr (py "Anderson Daronco"))])
            [(py "attendance", JInt 60000); (py "revenue", JInt 3500000);
             (py "weather", JStr (py "rain"))].

(** * Properties *)

(** ** The mappers *)

Lemma bind_Ok {A B} (m : result A) (f : A → result B) (b : B) :
  m ≫= f = Ok b ↔ ∃ a, m = Ok a ∧ f a = Ok b.
Proof.
  destruct m as [a|e]; simpl; split.
  - intros Hf. by exists a.
  - by intros (a' & [= <-] & Hf).
  - done.
  - by intros (a' & [=] & _).
Qed.

Lemma for_each_Ok {A B} (f : A → result B) (l : list A) (ys : list B) :
  for_each f l = Ok ys ↔ Forall2 (λ x y, f x = Ok y) l ys.
Proof.
  revert ys. induction l as [|x l IH]; intros ys; simpl.
  - split; [intros [= <-]; constructor | by inversion 1].
  - rewrite bind_Ok. split.
    + intros (y & Hy & Hrest). apply bind_Ok in Hrest as (ys' & Hys' & [= <-]).
      constructor; [done | by apply IH].
    + inversion 1 as [|? y ? ys' Hy Hys']; subst. exists y. split; [done|].
      apply bind_Ok. exists ys'. split; [by apply IH | done].
Qed.

Lemma for_each_total {A B} (f : A → result B) (l : list A) :
  Forall (λ x, ∃ y, f x = Ok y) l → ∃ ys, for_each f l = Ok ys.
Proof.
  induction 1 as [|x l [y Hy] _ [ys Hys]]; simpl.
  - by eexists.
  - rewrite Hy. simpl. rewrite Hys. simpl. by eexists.
Qed.

Lemma for_each_fails {A B} (f : A → result B) (l : list A) :
  Exists (λ x, ∃ e, f x = Err e) l → ∃ e, for_each f l = Err e.
Proof.
  induction 1 as [x l [e He]|x l _ [e He]]; simpl.
  - rewrite He. by eexists.
  - destruct (f x); simpl; [rewrite He|]; by eexists.
Qed.

(** The scrutinee that the left-hand side evaluates first. *)
Ltac first_call t :=
  lazymatch t with
  | match ?x with Ok _ => _ | Err _ => _ end => first_call x
  | _ => t
  end.

Ltac run_call :=
  lazymatch goal with
  | |- match ?y with Ok _ => _ | Err _ => _ end = _ =>
      let x := first_call y in destruct x; [|reflexivity]
  end.

Lemma process_match_flatten (m : json) : CBF.process_match m = flatten cbf_table m.
Proof.
  unfold CBF.process_match, flatten, cbf_table, for_each, extract, lookup_path;
    cbn [fpath fname fconv]; unfold mbind, result_bind.
  repeat run_call.
  reflexivity.
Qed.

Lemma processar_jogo_flatten (jogo : json) : Script.processar_jogo jogo = flatten script_table jogo.
Proof.
  unfold Script.processar_jogo, flatten, script_table, for_each, extract, lookup_path;
    cbn [fpath fname fconv]; unfold mbind, result_bind.
  repeat run_call.
  reflexivity.
Qed.

Lemma extract_Ok m f kv :
  extract m f = Ok kv ↔
  ∃ v x, lookup_path m (fpath f) = Ok v ∧ fconv f v = Ok x ∧ kv = (fname f, x).
Proof.
  unfold extract. rewrite bind_Ok. split.
  - intros (v & Hv & Hx). apply bind_Ok in Hx as (x & Hx & [= <-]). by exists v, x.
  - intros (v & x & Hv & Hx & ->). exists v. split; [done|].
    apply bind_Ok. by exists x.
Qed.

Lemma flatten_keys table m r : flatten table m = Ok r → keys r = fname <$> table.
Proof.
  unfold flatten. intros HF%for_each_Ok. induction HF as [|f kv table r Hkv _ IH]; [done|].
  apply extract_Ok in Hkv as (v & x & _ & _ & ->). unfold keys in *. simpl. by f_equal.
Qed.

Lemma flatten_total table m : complete table m → ∃ r, flatten table m = Ok r.
Proof.
  intros Hc. apply for_each_total. eapply Forall_impl; [exact Hc|].
  intros f (v & x & Hv & Hx). exists (fname f, x). apply extract_Ok. by exists v, x.
Qed.

Lemma flatten_complete table m r : flatten table m = Ok r → complete table m.
Proof.
  unfold flatten. intros HF%for_each_Ok. induction HF as [|f kv table r Hkv _ IH]; constructor; [|done].
  apply extract_Ok in Hkv as (v & x & ? & ? & _). by exists v, x.
Qed.

Lemma flatten_incomplete table m : ¬ complete table m → ∃ e, flatten table m = Err e.
Proof.
  intros Hn. destruct (flatten table m) as [r|e] eqn:E; [|by eexists].
  destruct Hn. by eapply flatten_complete.
Qed.

(** The value of a field in the flat record is the converted value at its
    path in the raw record. *)
Lemma flatten_lookup table m r i f :
  flatten table m = Ok r → table !! i = Some f →
  ∃ v x, lookup_path m (fpath f) = Ok v ∧ fconv f v = Ok x ∧ r !! i = Some (fname f, x).
Proof.
  unfold flatten. intros HF%for_each_Ok Hi.
  destruct (Forall2_lookup_l _ _ _ _ _ HF Hi) as (kv & Hr & Hkv).
  apply extract_Ok in Hkv as (v & x & ? & ? & ->). by exists v, x.
Qed.

Lemma dict_get_lookup (d : pydict) i k v :
  NoDup (keys d) → d !! i = Some (k, v) → dict_get d k = Some v.
Proof.
  revert i. induction d as [|[k' v'] d IH]; intros i Hnd Hi; [done|].
  unfold keys in Hnd. simpl in Hnd. apply NoDup_cons in Hnd as [Hk' Hnd].
  simpl. destruct i as [|i]; simpl in Hi.
  - injection Hi as -> ->. by rewrite bool_decide_eq_true_2.
  - rewrite bool_decide_eq_false_2; [by eapply IH|].
    intros ->. apply Hk'. apply list_elem_of_fmap. exists (k, v). split; [done|].
    by eapply list_elem_of_lookup_2.
Qed.

Lemma first_seen_covered seen ks : ks ⊆ seen → first_seen seen ks = [].
Proof.
  induction ks as [|k ks IH]; intros Hs; [done|]. simpl.
  rewrite bool_decide_eq_true_2; [|set_solver]. apply IH. set_solver.
Qed.

Lemma first_seen_app seen l rest :
  NoDup l → (∀ k, k ∈ l → k ∉ seen) → rest ⊆ seen ++ l →
  first_seen seen (l ++ rest) = l.
Proof.
  revert seen. induction l as [|k l IH]; intros seen Hnd Hdis Hrest; simpl.
  - apply first_seen_covered. by rewrite app_nil_r in Hrest.
  - apply NoDup_cons in Hnd as [Hk Hnd].
    rewrite bool_decide_eq_false_2; [|apply Hdis; set_solver].
    f_equal. apply IH; [done| |].
    + intros k' Hk'. rewrite elem_of_cons. intros [->|Hin]; [done|].
      apply (Hdis k'); [set_solver|done].
    + intros x Hx%Hrest. rewrite !elem_of_app, elem_of_cons in *. tauto.
Qed.

Lemma columns_same_keys (ks : list pystr) (records : list pydict) :
  NoDup ks → records ≠ [] → Forall (λ r, keys r = ks) records →
  columns (pd_DataFrame records) = ks.
Proof.
  intros Hnd Hne Hall. unfold pd_DataFrame. simpl.
  destruct Hall as [|r records Hr Hall]; [done|]. simpl. rewrite Hr.
  apply first_seen_app; [done|set_solver|].
  intros k Hk. apply list_elem_of_bind in Hk as (r' & Hk & Hr').
  rewrite Forall_forall in Hall. rewrite (Hall r' Hr') in Hk. set_solver.
Qed.

Lemma columns_no_record : columns (pd_DataFrame []) = [].
Proof. reflexivity. Qed.

Lemma rows_length records : length (rows (pd_DataFrame records)) = length records.
Proof. unfold pd_DataFrame. simpl. by rewrite length_fmap. Qed.

Lemma rows_width records :
  Forall (λ row, length row = length (columns (pd_DataFrame records)))
         (rows (pd_DataFrame records)).
Proof.
  unfold pd_DataFrame. cbn [rows columns]. apply Forall_fmap, Forall_true.
  intros r. unfold compose. apply length_fmap.
Qed.

Lemma values_by_keys (r : pydict) :
  NoDup (keys r) → (λ c, default JNull (dict_get r c)) <$> keys r = r.*2.
Proof.
  intros Hnd. apply list_eq. intros i. unfold keys. rewrite !list_lookup_fmap.
  destruct (r !! i) as [[k v]|] eqn:E; simpl; [|done].
  by rewrite (dict_get_lookup r i k v).
Qed.

(** The row of a record in a frame whose columns are the keys of the record. *)
Lemma rows_lookup (records : list pydict) i r :
  NoDup (keys r) → columns (pd_DataFrame records) = keys r →
  records !! i = Some r → rows (pd_DataFrame records) !! i = Some (r.*2).
Proof.
  intros Hnd Hcols Hi. unfold pd_DataFrame in *. simpl in *.
  rewrite list_lookup_fmap, Hi. simpl. rewrite Hcols. f_equal. by apply values_by_keys.
Qed.

Lemma for_each_ext {A B} (f g : A → result B) l :
  (∀ x, f x = g x) → for_each f l = for_each g l.
Proof. intros Hfg. induction l as [|x l IH]; simpl; [done|]. by rewrite Hfg, IH. Qed.

Lemma processed_matches_list ms :
  CBF.processed_matches (JList ms) = for_each (flatten cbf_table) ms.
Proof. apply for_each_ext, process_match_flatten. Qed.

Lemma lista_jogos_list ms :
  Script.lista_jogos (JList ms) = for_each (flatten script_table) ms.
Proof. apply for_each_ext, processar_jogo_flatten. Qed.

Lemma cbf_names_NoDup : NoDup (fname <$> cbf_table).
Proof. apply (bool_decide_unpack _). by vm_compute. Qed.

Lemma script_names_NoDup : NoDup (fname <$> script_table).
Proof. apply (bool_decide_unpack _). by vm_compute. Qed.

(** What one pass of a table-driven mapper over a list gives. *)
Lemma mapper_records table ms recs :
  for_each (flatten table) ms = Ok recs →
  length recs = length ms ∧ Forall (λ r, keys r = fname <$> table) recs.
Proof.
  intros HF%for_each_Ok. split; [symmetry; by eapply Forall2_length|].
  induction HF as [|m r ms recs Hr _ IH]; constructor; [|done].
  by eapply flatten_keys.
Qed.

Lemma mapper_frame table ms recs :
  NoDup (fname <$> table) →
  for_each (flatten table) ms = Ok recs →
  length (rows (pd_DataFrame recs)) = length ms
  ∧ (ms ≠ [] → columns (pd_DataFrame recs) = fname <$> table)
  ∧ Forall (λ row, length row = length (columns (pd_DataFrame recs)))
           (rows (pd_DataFrame recs)).
Proof.
  intros Hnd HF. destruct (mapper_records _ _ _ HF) as [Hlen Hkeys].
  split; [by rewrite rows_length|]. split; [|apply rows_width].
  intros Hne. apply columns_same_keys; [done| |done].
  intros ->. by destruct ms.
Qed.

Lemma mapper_lookup table ms recs i m :
  for_each (flatten table) ms = Ok recs → ms !! i = Some m →
  ∃ r, recs !! i = Some r ∧ flatten table m = Ok r.
Proof.
  intros HF%for_each_Ok Hi. destruct (Forall2_lookup_l _ _ _ _ _ HF Hi) as (r & ? & ?).
  by exists r.
Qed.

(** C1, first half of each variant: a run of the mapper that returns gives
    one record per match with exactly the fixed fields, and so does the
    frame built from them; second half: it does return on matches that
    provide every field. *)
Theorem mapper_one_record_per_match (ms : list json) :
  (∀ recs, CBF.processed_matches (JList ms) = Ok recs →
     length recs = length ms
     ∧ Forall (λ r, keys r = [py "data"; py "rodada"; py "time_casa";
                              py "time_visitante"; py "gols_casa";
                              py "gols_visitante"; py "estadio"; py "cidade";
                              py "estado"; py "arbitro"; py "publico";
                              py "renda"]) recs)
  ∧ (∀ df, CBF.process_matches (JList ms) = Ok df →
       length (rows df) = length ms
       ∧ Forall (λ row, length row = length (columns df)) (rows df)
       ∧ (ms ≠ [] → columns df = [py "data"; py "rodada"; py "time_casa";
                                   py "time_visitante"; py "gols_casa";
                                   py "gols_visitante"; py "estadio"; py "cidade";
                                   py "estado"; py "arbitro"; py "publico";
                                   py "renda"]))
  ∧ (Forall (complete cbf_table) ms →
       ∃ recs, CBF.processed_matches (JList ms) = Ok recs)
  ∧ (∀ recs, Script.lista_jogos (JList ms) = Ok recs →
       length recs = length ms
       ∧ Forall (λ r, keys r = [py "Data"; py "Time Casa"; py "Time Visitante";
                                py "Placar Casa"; py "Placar Visitante";
                                py "Est" ++ [225%N] ++ py "dio"]) recs
       ∧ length (rows (pd_DataFrame recs)) = length ms)
  ∧ (Forall (complete script_table) ms →
       ∃ recs, Script.lista_jogos (JList ms) = Ok recs).
Proof.
  split_and!.
  - intros recs. rewrite processed_matches_list. apply mapper_records.
  - intros df. unfold CBF.process_matches. intros (recs & Hrecs & [= <-])%bind_Ok.
    rewrite processed_matches_list in Hrecs.
    destruct (mapper_frame _ _ _ cbf_names_NoDup Hrecs) as (? & ? & ?). done.
  - intros Hc. rewrite processed_matches_list. apply for_each_total.
    eapply Forall_impl; [exact Hc|]. apply flatten_total.
  - intros recs. rewrite lista_jogos_list. intros Hrecs.
    destruct (mapper_records _ _ _ Hrecs) as [? ?].
    by rewrite rows_length.
  - intros Hc. rewrite lista_jogos_list. apply for_each_total.
    eapply Forall_impl; [exact Hc|]. apply flatten_total.
Qed.

Lemma csv_lines_lookup `{Externals} (df : DataFrame) i row :
  rows df !! i = Some row →
  csv_lines df !! S i = Some (csv_line (row_text df row)).
Proof. intros Hi. unfold csv_lines. simpl. by rewrite list_lookup_fmap, Hi. Qed.

Lemma mapper_row `{Externals} table ms recs i m :
  NoDup (fname <$> table) →
  for_each (flatten table) ms = Ok recs → ms !! i = Some m →
  ∃ r, flatten table m = Ok r
       ∧ recs !! i = Some r
       ∧ rows (pd_DataFrame recs) !! i = Some (r.*2)
       ∧ csv_lines (pd_DataFrame recs) !! S i
         = Some (csv_line (row_text (pd_DataFrame recs) (r.*2))).
Proof.
  intros Hnd HF Hi. destruct (mapper_lookup _ _ _ _ _ HF Hi) as (r & Hr & Hm).
  exists r. split; [done|]. split; [done|].
  assert (Hkeys : keys r = fname <$> table) by by eapply flatten_keys.
  assert (Hrow : rows (pd_DataFrame recs) !! i = Some (r.*2)).
  { apply rows_lookup; [by rewrite Hkeys| |done].
    rewrite Hkeys. destruct (mapper_frame _ _ _ Hnd HF) as (_ & Hcols & _).
    apply Hcols. intros ->. by rewrite lookup_nil in Hi. }
  split; [done|]. by apply csv_lines_lookup.
Qed.

(** C8: the i-th record, the i-th row of the frame and the i-th data line
    of the CSV text (the line after the header) all come from the i-th raw
    match, in both variants. *)
Theorem mapper_preserves_order `{Externals} (ms : list json) (i : nat) (m : json) :
  ms !! i = Some m →
  (∀ recs, CBF.processed_matches (JList ms) = Ok recs →
     ∃ r, CBF.process_match m = Ok r
          ∧ recs !! i = Some r
          ∧ rows (pd_DataFrame recs) !! i = Some (r.*2)
          ∧ csv_lines (pd_DataFrame recs) !! S i
            = Some (csv_line (row_text (pd_DataFrame recs) (r.*2))))
  ∧ (∀ recs, Script.lista_jogos (JList ms) = Ok recs →
       ∃ r, Script.processar_jogo m = Ok r
            ∧ recs !! i = Some r
            ∧ rows (pd_DataFrame recs) !! i = Some (r.*2)
            ∧ csv_lines (pd_DataFrame recs) !! S i
              = Some (csv_line (row_text (pd_DataFrame recs) (r.*2)))).
Proof.
  intros Hi. split; intros recs.
  - rewrite processed_matches_list, process_match_flatten. intros HF.
    by apply (mapper_row cbf_table ms); [apply cbf_names_NoDup|..].
  - rewrite lista_jogos_list, processar_jogo_flatten. intros HF.
    by apply (mapper_row script_table ms); [apply script_names_NoDup|..].
Qed.

Lemma flatten_dict_get table m r i f :
  NoDup (fname <$> table) → flatten table m = Ok r → table !! i = Some f →
  ∃ v x, lookup_path m (fpath f) = Ok v ∧ fconv f v = Ok x
         ∧ dict_get r (fname f) = Some x.
Proof.
  intros Hnd Hr Hi. destruct (flatten_lookup _ _ _ _ _ Hr Hi) as (v & x & Hv & Hx & Hri).
  exists v, x. split; [done|]. split; [done|].
  eapply dict_get_lookup; [|done]. by rewrite (flatten_keys _ _ _ Hr).
Qed.

(** C9: the second variant keeps the first ten characters of the date of
    the fixture, the first variant keeps the date as it is; both mappers
    return on a record that provides every field. *)
Theorem data_field_is_date_prefix :
  (∀ jogo r s,
     Script.processar_jogo jogo = Ok r →
     lookup_path jogo [py "fixture"; py "date"] = Ok (JStr s) →
     dict_get r (py "Data") = Some (JStr (take 10 s)))
  ∧ (∀ m r d,
       CBF.process_match m = Ok r →
       lookup_path m [py "date"] = Ok d →
       dict_get r (py "data") = Some d)
  ∧ (∀ jogo, complete script_table jogo → ∃ r, Script.processar_jogo jogo = Ok r)
  ∧ (∀ m, complete cbf_table m → ∃ r, CBF.process_match m = Ok r).
Proof.
  split_and!.
  - intros jogo r s. rewrite processar_jogo_flatten. intros Hr Hdate.
    destruct (flatten_dict_get script_table jogo r 0 _ script_names_NoDup Hr eq_refl)
      as (v & x & Hv & Hx & Hget).
    cbn [fpath fconv fname] in *. rewrite Hdate in Hv. injection Hv as <-.
    simpl in Hx. by injection Hx as <-.
  - intros m r d. rewrite process_match_flatten. intros Hr Hdate.
    destruct (flatten_dict_get cbf_table m r 0 _ cbf_names_NoDup Hr eq_refl)
      as (v & x & Hv & Hx & Hget).
    cbn [fpath fconv fname] in *. rewrite Hdate in Hv. injection Hv as <-.
    by injection Hx as <-.
  - intros jogo. rewrite processar_jogo_flatten. apply flatten_total.
  - intros m. rewrite process_match_flatten. apply flatten_total.
Qed.

Lemma startswith_spec s sub : startswith s sub = true ↔ ∃ post, s = sub ++ post.
Proof.
  revert s. induction sub as [|c sub IH]; intros s; simpl.
  - split; [by exists s|by destruct s].
  - destruct s as [|d s]; simpl.
    + split; [done|by intros (? & ?)].
    + rewrite andb_true_iff, bool_decide_eq_true, IH. split.
      * intros [-> (post & ->)]. by exists post.
      * intros (post & [= -> ->]). split; [done|by exists post].
Qed.

Lemma find_from_unfold i s sub :
  find_from i s sub
  = if startswith s sub then i
    else match s with
         | [] => (-1)%Z
         | _ :: s' => find_from (i + 1) s' sub
         end.
Proof. by destruct s. Qed.

Lemma find_from_spec i s sub :
  (0 ≤ i)%Z →
  ((i ≤ find_from i s sub)%Z ∧ contains s sub)
  ∨ (find_from i s sub = (-1)%Z ∧ ¬ contains s sub).
Proof.
  revert i. induction s as [|c s IH]; intros i Hi; rewrite find_from_unfold.
  - destruct (startswith [] sub) eqn:E.
    + left. split; [lia|]. apply startswith_spec in E as (post & E). by exists [], post.
    + right. split; [done|]. intros (pre & post & Hs).
      symmetry in Hs. apply app_eq_nil in Hs as [-> Hs]. apply app_eq_nil in Hs as [-> ->].
      done.
  - destruct (startswith (c :: s) sub) eqn:E.
    + left. split; [lia|]. apply startswith_spec in E as (post & E). by exists [], post.
    + destruct (IH (i + 1)%Z ltac:(lia)) as [[Hle Hc]|[Hm Hn]].
      * left. split; [lia|]. destruct Hc as (pre & post & ->). by exists (c :: pre), post.
      * right. split; [done|]. intros ([|c' pre] & post & Hs).
        -- simpl in Hs. assert (startswith (c :: s) sub = true) as Hy; [|congruence].
           apply startswith_spec. by exists post.
        -- injection Hs as -> ->. apply Hn. by exists pre, post.
Qed.

Lemma str_find_spec s sub : str_find s sub ≠ (-1)%Z ↔ contains s sub.
Proof.
  unfold str_find. destruct (find_from_spec 0 s sub ltac:(lia)) as [[Hle Hc]|[Hm Hn]].
  - split; [done|]. intros _. lia.
  - split; [done|]. intros Hc. by destruct Hn.
Qed.

Lemma eq_str_spec v s : eq_str v s = true ↔ v = JStr s.
Proof.
  destruct v; simpl; try (split; [done|by intros [=]]).
  rewrite bool_decide_eq_true. split; [by intros ->|by intros [=]].
Qed.

Section Resolver.
Context `{Externals}.

(** The test of the loop holds exactly under the three conditions. *)
Lemma is_serie_a_true year c :
  CBF.is_serie_a year c = Ok true ↔ meets_conditions year c.
Proof.
  unfold CBF.is_serie_a, meets_conditions. split.
  - destruct (getitem c (py "name")) as [[| | |name| |]|e]; simpl; try done.
    case_bool_decide as Hfind; [|done]. apply str_find_spec in Hfind.
    destruct (getitem c (py "series")) as [series|e]; simpl; [|done].
    destruct (eq_str series (py "A")) eqn:Hseries; [|done].
    apply eq_str_spec in Hseries as ->.
    destruct (getitem c (py "season")) as [season|e]; simpl; [|done].
    intros [= Hseason]. apply eq_str_spec in Hseason as ->. by exists name.
  - intros (name & Hname & Hkw & Hseries & Hseason).
    rewrite Hname. unfold mbind at 1 2, result_bind. cbv beta iota.
    rewrite bool_decide_eq_true_2 by by apply str_find_spec.
    rewrite Hseries. unfold mbind at 1, result_bind. cbv beta iota.
    rewrite (proj2 (eq_str_spec _ _) eq_refl).
    rewrite Hseason. unfold mbind, result_bind. cbv beta iota.
    by rewrite (proj2 (eq_str_spec _ _) eq_refl).
Qed.

(** The test returns on a competition of which the conditions can be told. *)
Lemma is_serie_a_testable year c : testable c → ∃ b, CBF.is_serie_a year c = Ok b.
Proof.
  intros (name & Hname & Hrest). unfold CBF.is_serie_a. rewrite Hname. simpl.
  case_bool_decide as Hfind; [|by eexists].
  apply str_find_spec in Hfind. destruct (Hrest Hfind) as (series & Hseries & Hseason).
  rewrite Hseries. simpl. destruct (eq_str series (py "A")) eqn:Ha; [|by eexists].
  apply eq_str_spec in Ha. destruct (Hseason Ha) as [season ->]. by eexists.
Qed.

Lemma is_serie_a_false year c :
  testable c → ¬ meets_conditions year c → CBF.is_serie_a year c = Ok false.
Proof.
  intros [[] Hb]%(is_serie_a_testable year) Hno; [|done].
  by apply is_serie_a_true in Hb.
Qed.

(** [name.lower()] on a name that is not a string, and a competition
    without a name. *)
Lemma is_serie_a_name_not_str year c v :
  getitem c (py "name") = Ok v → (∀ s, v ≠ JStr s) →
  CBF.is_serie_a year c = Err AttributeError.
Proof.
  intros Hname Hv. unfold CBF.is_serie_a. rewrite Hname. simpl.
  destruct v; try done. by destruct (Hv s).
Qed.

Lemma is_serie_a_no_name year c e :
  getitem c (py "name") = Err e → CBF.is_serie_a year c = Err e.
Proof. intros Hname. unfold CBF.is_serie_a. by rewrite Hname. Qed.

(** The loop passes over the competitions that do not meet the conditions. *)
Lemma find_competition_skips year before rest :
  Forall testable before →
  Forall (λ c, ¬ meets_conditions year c) before →
  CBF.find_competition year (before ++ rest) = CBF.find_competition year rest.
Proof.
  intros Htest Hno. induction Htest as [|c before Hc _ IH]; simpl; [done|].
  apply Forall_cons in Hno as [Hno Hbefore].
  rewrite (is_serie_a_false year c Hc Hno). simpl. by apply IH.
Qed.

Lemma find_competition_first year before c after :
  Forall testable before →
  Forall (λ c', ¬ meets_conditions year c') before →
  meets_conditions year c →
  CBF.find_competition year (before ++ c :: after) = getitem c (py "id").
Proof.
  intros Htest Hno Hc. rewrite find_competition_skips by done. simpl.
  apply is_serie_a_true in Hc. by rewrite Hc.
Qed.

Lemma find_competition_stops year before c after e :
  Forall testable before →
  Forall (λ c', ¬ meets_conditions year c') before →
  CBF.is_serie_a year c = Err e →
  CBF.find_competition year (before ++ c :: after) = Err e.
Proof.
  intros Htest Hno Hc. rewrite find_competition_skips by done. simpl. by rewrite Hc.
Qed.

Lemma find_competition_none year comps :
  Forall testable comps →
  Forall (λ c, ¬ meets_conditions year c) comps →
  CBF.find_competition year comps
  = Err (ValueError (py "Competition not found for year " ++ str_of_Z year)).
Proof.
  intros Htest Hno. rewrite <- (app_nil_r comps). by rewrite find_competition_skips.
Qed.

Lemma find_competition_Ok_inv year comps id :
  CBF.find_competition year comps = Ok id →
  ∃ before c after,
    comps = before ++ c :: after
    ∧ Forall (λ c', ¬ meets_conditions year c') before
    ∧ meets_conditions year c
    ∧ getitem c (py "id") = Ok id.
Proof.
  induction comps as [|c comps IH]; simpl; [done|].
  destruct (CBF.is_serie_a year c) as [[]|e] eqn:Htest; simpl; [| |done].
  - intros Hid. exists [], c, comps. split_and!; [done|constructor| |done].
    by apply is_serie_a_true.
  - intros (before & c' & after & -> & Hbefore & Hc' & Hid)%IH.
    exists (c :: before), c', after. split_and!; [done| |done..].
    constructor; [|done]. intros Hc%is_serie_a_true. congruence.
Qed.

Lemma find_competition_not_found_inv year comps msg :
  CBF.find_competition year comps = Err (ValueError msg) →
  msg = py "Competition not found for year " ++ str_of_Z year
  ∧ Forall (λ c, ¬ meets_conditions year c) comps.
Proof.
  induction comps as [|c comps IH]; simpl.
  - intros [= <-]. by split.
  - destruct (CBF.is_serie_a year c) as [[]|e] eqn:Htest; simpl.
    + destruct c; simpl; try done. by destruct (dict_get d (py "id")).
    + intros [-> Hall]%IH. split; [done|]. constructor; [|done].
      intros Hc%is_serie_a_true. congruence.
    + intros [= ->]. revert Htest. unfold CBF.is_serie_a.
      destruct c; simpl; try done.
      destruct (dict_get d (py "name")) as [[| | |name| |]|]; simpl; try done.
      case_bool_decide; [|done].
      destruct (dict_get d (py "series")) as [series|]; simpl; [|done].
      destruct (eq_str series (py "A")); [|done].
      by destruct (dict_get d (py "season")).
Qed.

End Resolver.

(** C3: the Resolver returns the [id] of the first competition of the
    listing that meets the three conditions, when the conditions can be
    told of every competition before it; what comes after it is not read.
    It raises the not-found [ValueError] when the conditions can be told
    of every competition and none meets them.  A competition that the scan
    reaches and whose name is not a string, or is missing, makes it raise
    the exception of that lookup instead, whatever follows.  Of two
    competitions that differ in the season it returns the one of the
    requested year, in either order. *)
Theorem resolver_selects_first_match `{Externals} `{Environment}
    (self : CBF.CBFDataExporter) (year : Z) (resp : Response) (comps : list json) :
  http_get (CBF.base_url self ++ py "/competitions") (CBF.headers self) = Ok resp →
  ¬ (400 ≤ status_code resp < 600)%Z →
  json_body resp = Ok (JList comps) →
  (∀ before c after,
     comps = before ++ c :: after →
     Forall testable before →
     Forall (λ c', ¬ meets_conditions year c') before →
     (meets_conditions year c →
      CBF.get_competition_id self year = getitem c (py "id"))
     ∧ (∀ v, getitem c (py "name") = Ok v → (∀ s, v ≠ JStr s) →
             CBF.get_competition_id self year = Err AttributeError)
     ∧ (∀ e, getitem c (py "name") = Err e →
             CBF.get_competition_id self year = Err e))
  ∧ (Forall testable comps →
     Forall (λ c, ¬ meets_conditions year c) comps →
     CBF.get_competition_id self year
     = Err (ValueError (py "Competition not found for year " ++ str_of_Z year)))
  ∧ (∀ name season1 id1 id2 c1 c2,
       competition name (JStr (py "A")) season1 id1 c1 →
       competition name (JStr (py "A")) (JStr (str_of_Z year)) id2 c2 →
       season1 ≠ JStr (str_of_Z year) →
       contains (str_lower name) (py "brasileiro") →
       comps = [c1; c2] ∨ comps = [c2; c1] →
       CBF.get_competition_id self year = Ok id2).
Proof.
  intros Hget Hstatus Hbody.
  assert (Hrun : CBF.get_competition_id self year = CBF.find_competition year comps).
  { unfold CBF.get_competition_id. rewrite Hget. simpl.
    unfold raise_for_status. rewrite bool_decide_eq_false_2 by done. simpl.
    by rewrite Hbody. }
  rewrite Hrun. split_and!.
  - intros before c after -> Htest Hno. split_and!.
    + intros Hc. by apply find_competition_first.
    + intros v Hname Hv. apply find_competition_stops; [done..|].
      by apply (is_serie_a_name_not_str year c v).
    + intros e Hname. apply find_competition_stops; [done..|].
      by apply is_serie_a_no_name.
  - intros Htest Hno. by apply find_competition_none.
  - intros name season1 id1 id2 c1 c2 Hc1 Hc2 Hne Hkw Hcomps.
    assert (Hyes : meets_conditions year c2).
    { destruct Hc2 as (Hn & Hs & Hy & _). by exists name. }
    assert (Hno : ¬ meets_conditions year c1).
    { intros (name' & _ & _ & _ & Hy). destruct Hc1 as (_ & _ & Hy1 & _). congruence. }
    assert (Ht : testable c1).
    { destruct Hc1 as (Hn & Hs & Hy & _). exists name. split; [done|].
      intros _. exists (JStr (py "A")). split; [done|]. intros _. by exists season1. }
    destruct Hc2 as (_ & _ & _ & Hid2).
    destruct Hcomps as [-> | ->].
    + rewrite (find_competition_first year [c1] c2 []); [done| | |done].
      * by constructor.
      * by constructor.
    + by rewrite (find_competition_first year [] c2 [c1]).
Qed.

(** ** What the runs do to the files *)

Lemma keeps_files_bind {A B} (m : prog A) (f : A → prog B) :
  keeps_files m → (∀ a, keeps_files (f a)) → keeps_files (m ≫= f).
Proof.
  intros Hm Hf w. unfold mbind, prog_bind. specialize (Hm w).
  destruct (m w) as [w' [a|e]]; simpl in *; [|done].
  by rewrite Hf.
Qed.

Lemma keeps_files_lift {A} (r : result A) : keeps_files (lift r).
Proof. done. Qed.

Lemma keeps_files_emit ev : keeps_files (emit ev).
Proof. done. Qed.

Lemma keeps_files_raise {A} e : keeps_files (@raise A e).
Proof. done. Qed.

Lemma keeps_files_ret {A} (a : A) : keeps_files (mret a).
Proof. done. Qed.

Lemma keeps_files_makedirs d : keeps_files (makedirs d).
Proof. intros w. unfold makedirs. by destruct (files w !! d). Qed.

Lemma keeps_files_try {A} (body : prog A) handler :
  keeps_files body → (∀ e, keeps_files (handler e)) → keeps_files (try_except body handler).
Proof.
  intros Hb Hh w. unfold try_except. specialize (Hb w).
  destruct (body w) as [w' [a|e]]; simpl in *; [done|]. by rewrite Hh.
Qed.

Ltac keeps_files :=
  repeat first
    [ apply keeps_files_lift | apply keeps_files_emit | apply keeps_files_raise
    | apply keeps_files_ret | apply keeps_files_makedirs
    | apply keeps_files_bind; [|intros ?]
    | apply keeps_files_try; [|intros ?] ].

Section Runs.
Context `{Externals} `{Environment}.

Lemma keeps_files_get_matches self cid : keeps_files (CBF.get_matches self cid).
Proof. unfold CBF.get_matches. keeps_files. Qed.

Lemma keeps_files_summary df : keeps_files (CBF._log_export_summary df).
Proof. unfold CBF._log_export_summary. keeps_files. Qed.

Lemma to_csv_files df path enc w :
  files (to_csv df path enc w).1
  = <[path := (write_text enc (csv_lines df)).1]> (files w).
Proof. unfold to_csv. by destruct (write_text enc (csv_lines df)). Qed.
End Runs.

Section ExportSeason.
Context `{Externals} `{Environment}.

(** The handlers of [export_season] log and raise the exception again. *)
Lemma try_except_reraise {A} (body : prog A) w w1 e :
  body w = (w1, Err e) →
  ∃ w', try_except body
          (λ e, if is_request_exception e
                then emit (LogError (ApiRequestFailed e));; raise e
                else emit (LogError (ExportFailed e));; raise e) w = (w', Err e)
        ∧ files w' = files w1.
Proof.
  intros Hb. unfold try_except. rewrite Hb.
  destruct (is_request_exception e); by eexists.
Qed.

Lemma export_season_file_in_the_way self year dir w :
  is_Some (files w !! dir) →
  ∃ w', CBF.export_season self year dir w = (w', Err FileExistsError)
        ∧ files w' = files w.
Proof.
  intros [b Hb]. unfold CBF.export_season.
  eapply try_except_reraise. unfold mbind, prog_bind, makedirs. by rewrite Hb.
Qed.

(** Without a frame there is no write: the exception of the Resolver,
    the Fetcher or the Mapper leaves [export_season] and the files are
    as before. *)
Lemma export_season_without_frame self year dir w e :
  files w !! dir = None →
  exported_frame self year = Err e →
  ∃ w', CBF.export_season self year dir w = (w', Err e) ∧ files w' = files w.
Proof.
  intros Hdir Hframe. unfold CBF.export_season.
  match goal with |- ∃ w', try_except ?b _ _ = _ ∧ _ =>
    assert (∃ w1, b w = (w1, Err e) ∧ files w1 = files w) as (w1 & Hb & Hw1)
  end.
  { unfold exported_frame in Hframe.
    unfold mbind, prog_bind, makedirs, emit, lift, CBF.get_matches. rewrite Hdir.
    cbn [files dirs out]. unfold mbind, prog_bind, lift, emit. cbn [files dirs out].
    destruct (CBF.get_competition_id self year) as [cid|e1]; simpl in Hframe;
      [|injection Hframe as ->; by eexists].
    destruct (http_get _ _) as [resp|e1]; simpl in Hframe;
      [|injection Hframe as ->; by eexists].
    destruct (raise_for_status resp) as [[]|e1]; simpl in Hframe;
      [|injection Hframe as ->; by eexists].
    destruct (json_body resp) as [matches|e1]; simpl in Hframe;
      [|injection Hframe as ->; by eexists].
    destruct (len matches) as [n|e1]; simpl in Hframe;
      [|injection Hframe as ->; by eexists].
    unfold mret, prog_ret. cbn [files dirs out]. rewrite Hframe. by eexists. }
  destruct (try_except_reraise _ _ _ _ Hb) as (w' & Hrun & Hw').
  exists w'. split; [done|congruence].
Qed.

(** With a frame the file is written; the summary and the handlers do not
    touch it any more. *)
Lemma export_season_with_frame self year dir w df :
  files w !! dir = None →
  exported_frame self year = Ok df →
  files (CBF.export_season self year dir w).1
  = <[CBF.export_path year dir := (write_text UTF8 (csv_lines df)).1]> (files w).
Proof.
  intros Hdir Hframe. unfold CBF.export_season.
  unfold exported_frame in Hframe.
  destruct (CBF.get_competition_id self year) as [cid|e1] eqn:Hcid; [|done].
  simpl in Hframe.
  destruct (http_get _ _) as [resp|e1] eqn:Hget; [|done]. simpl in Hframe.
  destruct (raise_for_status resp) as [[]|e1] eqn:Hst; [|done]. simpl in Hframe.
  destruct (json_body resp) as [matches|e1] eqn:Hbody; [|done]. simpl in Hframe.
  destruct (len matches) as [n|e1] eqn:Hlen; [|done]. simpl in Hframe.
  unfold try_except.
  match goal with |- files (match ?b w with _ => _ end).1 = _ =>
    assert (∃ w1 r, b w = (w1, r)
            ∧ files w1 = <[CBF.export_path year dir :=
                             (write_text UTF8 (csv_lines df)).1]> (files w))
      as (w1 & r & Hb & Hw1)
  end.
  { unfold mbind, prog_bind, makedirs, emit, lift, CBF.get_matches. rewrite Hdir.
    cbn [files dirs out]. unfold mbind, prog_bind, lift, emit. cbn [files dirs out].
    rewrite ?Hcid, ?Hget, ?Hst, ?Hbody, ?Hlen. unfold mret, prog_ret.
    cbn [files dirs out]. rewrite Hframe.
    unfold to_csv at 1. cbn [files dirs out].
    destruct (write_text UTF8 (csv_lines df)) as [bytes [[]|e]]; cbn [fst];
      [|by eexists _, _].
    pose proof (keeps_files_summary df) as Hsum.
    match goal with |- context [CBF._log_export_summary df ?w2] =>
      specialize (Hsum w2); destruct (CBF._log_export_summary df w2) as [w3 [[]|e]]
    end; simpl in Hsum; by eexists _, _. }
  rewrite Hb. destruct r as [p|e]; [done|]. simpl.
  destruct (is_request_exception e); by simpl.
Qed.
End ExportSeason.

Section ObterJogos.
Context `{Externals} `{Environment}.

Ltac run_prog :=
  unfold mbind, prog_bind, mret, prog_ret, lift, emit, raise; cbn [files dirs out].

(** Any status but 200: the message is printed and the function returns
    [None]. *)
Lemma obter_jogos_not_200 ano w resp :
  http_get (Script.fixtures_url ano) Script.fixtures_headers = Ok resp →
  status_code resp ≠ 200%Z →
  Script.obter_jogos_brasileirao ano w
  = (mkWorld (files w) (dirs w) (out w ++ [Print (ErroApi (status_code resp))]),
     Ok JNull).
Proof.
  intros Hget Hst. unfold Script.obter_jogos_brasileirao. run_prog.
  rewrite Hget. cbv beta iota. by rewrite bool_decide_eq_true_2.
Qed.

(** Status 200 and a list of records: the file is written. *)
Lemma obter_jogos_200 ano w resp body jogos records :
  http_get (Script.fixtures_url ano) Script.fixtures_headers = Ok resp →
  status_code resp = 200%Z →
  json_body resp = Ok body →
  dict_method_get body (py "response") (JList []) = Ok jogos →
  Script.lista_jogos jogos = Ok records →
  let written := write_text UTF8_SIG (csv_lines (pd_DataFrame records)) in
  Script.obter_jogos_brasileirao ano w
  = match written.2 with
    | Ok _ => (mkWorld (<[Script.csv_path ano := written.1]> (files w)) (dirs w)
                 (out w ++ [Print (ArquivoCriado ano)]), Ok JNull)
    | Err e => (mkWorld (<[Script.csv_path ano := written.1]> (files w)) (dirs w)
                  (out w), Err e)
    end.
Proof.
  intros Hget Hst Hbody Hjogos Hrecords written.
  unfold Script.obter_jogos_brasileirao. run_prog.
  rewrite Hget. cbv beta iota.
  case_bool_decide; [done|].
  rewrite Hbody. cbv beta iota. rewrite Hjogos. cbv beta iota.
  rewrite Hrecords. cbv beta iota. unfold to_csv. fold written.
  by destruct written as [bytes [[]|e]].
Qed.

(** The function has no other value to return than [None]. *)
Lemma obter_jogos_returns_None ano w w' v :
  Script.obter_jogos_brasileirao ano w = (w', Ok v) → v = JNull.
Proof.
  unfold Script.obter_jogos_brasileirao. run_prog.
  destruct (http_get _ _) as [resp|e]; [|done].
  case_bool_decide; [by intros [= _ <-]|].
  destruct (json_body resp) as [body|e]; [|done].
  destruct (dict_method_get _ _ _) as [jogos|e]; [|done].
  destruct (Script.lista_jogos jogos) as [records|e]; [|done].
  destruct (to_csv _ _ _ _) as [w1 [[]|e]]; [|done].
  by intros [= _ <-].
Qed.

(** A run that does not reach the Writer leaves the files as they are. *)
Lemma obter_jogos_without_records ano w :
  (∀ resp body jogos records,
     http_get (Script.fixtures_url ano) Script.fixtures_headers = Ok resp →
     status_code resp = 200%Z →
     json_body resp = Ok body →
     dict_method_get body (py "response") (JList []) = Ok jogos →
     Script.lista_jogos jogos = Ok records → False) →
  files (Script.obter_jogos_brasileirao ano w).1 = files w.
Proof.
  intros Hno. unfold Script.obter_jogos_brasileirao. run_prog.
  destruct (http_get _ _) as [resp|e] eqn:Hget; [|done].
  case_bool_decide as Hst; [done|].
  destruct (json_body resp) as [body|e] eqn:Hbody; [|done].
  destruct (dict_method_get _ _ _) as [jogos|e] eqn:Hjogos; [|done].
  destruct (Script.lista_jogos jogos) as [records|e] eqn:Hrecords; [|done].
  destruct (Hno resp body jogos records); try done.
Qed.
End ObterJogos.

Lemma for_each_Err_inv {A B} (f : A → result B) (l : list A) e :
  for_each f l = Err e → ∃ x, x ∈ l ∧ f x = Err e.
Proof.
  induction l as [|x l IH]; simpl; [done|].
  destruct (f x) as [y|e'] eqn:Hx; simpl.
  - destruct (for_each f l) as [ys|e'']; simpl; [done|].
    intros [= ->]. destruct IH as (x' & ? & ?); [done|]. exists x'. split; [by right|done].
  - intros [= ->]. exists x. split; [by left|done].
Qed.

Lemma object_getitem d k :
  (∃ v, getitem (JDict d) k = Ok v) ∨ getitem (JDict d) k = Err (KeyError k).
Proof. simpl. destruct (dict_get d k); [left; by eexists|by right]. Qed.

(** In a record of nested objects a lookup along a path of the table can
    only fail for a missing key. *)
Lemma nested_lookup_fails_with_KeyError m f e :
  nested_objects m → f ∈ cbf_table → lookup_path m (fpath f) = Err e →
  ∃ k, e = KeyError k.
Proof.
  intros [[d ->] Hnested] Hf.
  assert (Hone : ∀ k, lookup_path (JDict d) [k] = Err e → ∃ k', e = KeyError k').
  { intros k. cbn [lookup_path]. destruct (object_getitem d k) as [[v ->]| ->]; simpl; [done|].
    intros [= <-]. by eexists. }
  assert (Htwo : ∀ a b,
            a ∈ [py "home_team"; py "away_team"; py "stadium"; py "referee"] →
            lookup_path (JDict d) [a; b] = Err e → ∃ k', e = KeyError k').
  { intros a b Ha. cbn [lookup_path].
    destruct (object_getitem d a) as [[v Hv]|Hv]; rewrite Hv; simpl.
    - destruct (Hnested a v Ha Hv) as [d' ->].
      destruct (object_getitem d' b) as [[v' ->]| ->]; simpl; [done|].
      intros [= <-]. by eexists.
    - intros [= <-]. by eexists. }
  unfold cbf_table in Hf.
  repeat (apply elem_of_cons in Hf as [-> | Hf];
          [first [apply Hone | apply Htwo; set_solver]|]).
  by apply elem_of_nil in Hf.
Qed.

Lemma nested_mapper_fails_with_KeyError ms e :
  Forall nested_objects ms → for_each (flatten cbf_table) ms = Err e →
  ∃ k, e = KeyError k.
Proof.
  intros Hnested (m & Hm & Hflat)%for_each_Err_inv.
  rewrite Forall_forall in Hnested. specialize (Hnested m Hm).
  apply for_each_Err_inv in Hflat as (f & Hf & Hext).
  unfold extract in Hext.
  destruct (lookup_path m (fpath f)) as [v|e'] eqn:Hv; simpl in Hext.
  - assert (fconv f v = Ok v) as Hconv.
    { unfold cbf_table in Hf.
      repeat (apply elem_of_cons in Hf as [-> | Hf]; [done|]).
      by apply elem_of_nil in Hf. }
    by rewrite Hconv in Hext.
  - injection Hext as ->. by eapply nested_lookup_fails_with_KeyError.
Qed.

Section Aborts.
Context `{Externals} `{Environment}.

(** An exception of the Resolver, the Fetcher or the Mapper leaves
    [export_season], whatever the world, and the files are as before. *)
Lemma export_season_aborts self year dir w e :
  exported_frame self year = Err e →
  ∃ w' e', CBF.export_season self year dir w = (w', Err e')
           ∧ files w' = files w
           ∧ (files w !! dir = None → e' = e).
Proof.
  intros Hframe. destruct (files w !! dir) as [b|] eqn:Hdir.
  - destruct (export_season_file_in_the_way self year dir w) as (w' & ? & ?); [by eexists|].
    by exists w', FileExistsError.
  - destruct (export_season_without_frame self year dir w e) as (w' & ? & ?); [done..|].
    by exists w', e.
Qed.

Lemma exported_frame_of_matches self year cid resp matches :
  CBF.get_competition_id self year = Ok cid →
  http_get (CBF.matches_url self cid) (CBF.headers self) = Ok resp →
  ¬ (400 ≤ status_code resp < 600)%Z →
  json_body resp = Ok (JList matches) →
  exported_frame self year = CBF.process_matches (JList matches).
Proof.
  intros Hcid Hget Hst Hbody. unfold exported_frame. rewrite Hcid. simpl.
  rewrite Hget. simpl. unfold raise_for_status.
  rewrite bool_decide_eq_false_2 by done. simpl. by rewrite Hbody.
Qed.
End Aborts.

(** C2, as amended: a match that does not provide every field makes the
    Mapper raise, [export_season] raises in turn and no file is written;
    the exception is a [KeyError] when the records are nested objects. *)
Theorem missing_field_aborts_before_write `{Externals} `{Environment}
    (self : CBF.CBFDataExporter) (year : Z) (dir : pystr) (w : World)
    (cid : json) (resp : Response) (ms : list json) :
  CBF.get_competition_id self year = Ok cid →
  http_get (CBF.matches_url self cid) (CBF.headers self) = Ok resp →
  ¬ (400 ≤ status_code resp < 600)%Z →
  json_body resp = Ok (JList ms) →
  Exists (λ m, ¬ complete cbf_table m) ms →
  ∃ e, CBF.process_matches (JList ms) = Err e
       ∧ (Forall nested_objects ms → ∃ k, e = KeyError k)
       ∧ ∃ w' e', CBF.export_season self year dir w = (w', Err e')
                  ∧ files w' = files w
                  ∧ (files w !! dir = None → e' = e).
Proof.
  intros Hcid Hget Hst Hbody Hlack.
  assert (∃ e, for_each (flatten cbf_table) ms = Err e) as [e He].
  { apply for_each_fails. eapply Exists_impl; [exact Hlack|].
    intros m. apply flatten_incomplete. }
  assert (Hproc : CBF.process_matches (JList ms) = Err e).
  { unfold CBF.process_matches. by rewrite processed_matches_list, He. }
  exists e. split; [done|]. split.
  - intros Hnested. by eapply nested_mapper_fails_with_KeyError.
  - apply export_season_aborts.
    by rewrite (exported_frame_of_matches self year cid resp ms).
Qed.

(** C4, as amended: a 4xx or 5xx answer to the request for the matches
    makes [export_season] raise the HTTP error and write no file; any
    status but 200 makes [obter_jogos_brasileirao] print its message and
    return without writing a file. *)
Theorem failed_request_writes_no_file `{Externals} `{Environment} :
  (∀ self year dir w cid resp,
     CBF.get_competition_id self year = Ok cid →
     http_get (CBF.matches_url self cid) (CBF.headers self) = Ok resp →
     (400 ≤ status_code resp < 600)%Z →
     ∃ w' e', CBF.export_season self year dir w = (w', Err e')
              ∧ files w' = files w
              ∧ (files w !! dir = None → e' = HTTPError (status_code resp)))
  ∧ (∀ ano w resp,
       http_get (Script.fixtures_url ano) Script.fixtures_headers = Ok resp →
       status_code resp ≠ 200%Z →
       Script.obter_jogos_brasileirao ano w
       = (mkWorld (files w) (dirs w) (out w ++ [Print (ErroApi (status_code resp))]),
          Ok JNull)).
Proof.
  split.
  - intros self year dir w cid resp Hcid Hget Hst. apply export_season_aborts.
    unfold exported_frame. rewrite Hcid. simpl. rewrite Hget. simpl.
    unfold raise_for_status. by rewrite bool_decide_eq_true_2.
  - intros ano w resp. apply obter_jogos_not_200.
Qed.

Lemma write_text_no_record `{Externals} enc :
  write_text enc (csv_lines (pd_DataFrame [])) = (bom enc ++ [LF], Ok ()).
Proof. by destruct enc. Qed.

(** C5, as amended: with no match the file is still written, but it holds
    one line terminator (after the mark in the second variant) and no
    column name: the columns come from the records, and there is none. *)
Theorem empty_export_is_a_blank_line `{Externals} `{Environment} :
  (∀ self year dir w cid resp,
     files w !! dir = None →
     CBF.get_competition_id self year = Ok cid →
     http_get (CBF.matches_url self cid) (CBF.headers self) = Ok resp →
     ¬ (400 ≤ status_code resp < 600)%Z →
     json_body resp = Ok (JList []) →
     files (CBF.export_season self year dir w).1
     = <[CBF.export_path year dir := [LF]]> (files w))
  ∧ (∀ ano w resp body,
       http_get (Script.fixtures_url ano) Script.fixtures_headers = Ok resp →
       status_code resp = 200%Z →
       json_body resp = Ok body →
       dict_method_get body (py "response") (JList []) = Ok (JList []) →
       Script.obter_jogos_brasileirao ano w
       = (mkWorld (<[Script.csv_path ano := [0xEF; 0xBB; 0xBF; LF]%N]> (files w))
            (dirs w) (out w ++ [Print (ArquivoCriado ano)]),
          Ok JNull)).
Proof.
  split.
  - intros self year dir w cid resp Hdir Hcid Hget Hst Hbody.
    rewrite (export_season_with_frame self year dir w (pd_DataFrame [])); [|done|].
    + by rewrite write_text_no_record.
    + by rewrite (exported_frame_of_matches self year cid resp []).
  - intros ano w resp body Hget Hst Hbody Hjogos.
    rewrite (obter_jogos_200 ano w resp body (JList []) []); [|done..].
    by rewrite write_text_no_record.
Qed.

(** C6: the fixture of the example gives the record, the two lines of text
    and, once fetched with status 200, the bytes of the file: the mark, the
    header and the row [2023-04-15,Flamengo,Palmeiras,2,1,Maracanã]. *)
Theorem example_row_is_written `{Externals} `{Environment} :
  let header := py "Data,Time Casa,Time Visitante,Placar Casa,Placar Visitante,Est"
                ++ [225%N] ++ py "dio" ++ [LF] in
  let row := py "2023-04-15,Flamengo,Palmeiras,2,1,Maracan" ++ [227%N; LF] in
  let record := [(py "Data", JStr (py "2023-04-15"));
                 (py "Time Casa", JStr (py "Flamengo"));
                 (py "Time Visitante", JStr (py "Palmeiras"));
                 (py "Placar Casa", JInt 2);
                 (py "Placar Visitante", JInt 1);
                 (py "Est" ++ [225%N] ++ py "dio", JStr (py "Maracan" ++ [227%N]))] in
  Script.lista_jogos (JList [flamengo_palmeiras]) = Ok [record]
  ∧ csv_lines (pd_DataFrame [record]) = [header; row]
  ∧ ∃ header_bytes row_bytes,
      utf8_encode header = Some header_bytes
      ∧ utf8_encode row = Some row_bytes
      ∧ ∀ ano w resp,
          http_get (Script.fixtures_url ano) Script.fixtures_headers = Ok resp →
          status_code resp = 200%Z →
          json_body resp = Ok (JDict [(py "response", JList [flamengo_palmeiras])]) →
          Script.obter_jogos_brasileirao ano w
          = (mkWorld (<[Script.csv_path ano :=
                          [0xEF; 0xBB; 0xBF]%N ++ header_bytes ++ row_bytes]> (files w))
               (dirs w) (out w ++ [Print (ArquivoCriado ano)]),
             Ok JNull).
Proof.
  intros header row record.
  assert (Hrec : Script.lista_jogos (JList [flamengo_palmeiras]) = Ok [record])
    by by vm_compute.
  assert (Hlines : csv_lines (pd_DataFrame [record]) = [header; row]) by by vm_compute.
  split; [done|]. split; [done|].
  destruct (utf8_encode header) as [hb|] eqn:Hh; [|by vm_compute in Hh].
  destruct (utf8_encode row) as [rb|] eqn:Hr; [|by vm_compute in Hr].
  exists hb, rb. split; [done|]. split; [done|].
  intros ano w resp Hget Hst Hbody.
  rewrite (obter_jogos_200 ano w resp
             (JDict [(py "response", JList [flamengo_palmeiras])])
             (JList [flamengo_palmeiras]) [record]); [|done..].
  rewrite Hlines. unfold write_text, write_lines. rewrite Hh, Hr. cbn [fst snd bom].
  by rewrite <- app_assoc.
Qed.

(** C10: [obter_jogos_brasileirao] has [None] as its only value: it
    returns it after the message of a status that is not 200, with the
    files untouched, and it returns it after a file is written. *)
Theorem obter_jogos_returns_only_None `{Externals} `{Environment} (ano : Z) (w : World) :
  (∀ w' v, Script.obter_jogos_brasileirao ano w = (w', Ok v) → v = JNull)
  ∧ (∀ resp,
       http_get (Script.fixtures_url ano) Script.fixtures_headers = Ok resp →
       status_code resp ≠ 200%Z →
       Script.obter_jogos_brasileirao ano w
       = (mkWorld (files w) (dirs w) (out w ++ [Print (ErroApi (status_code resp))]),
          Ok JNull))
  ∧ (∀ resp body jogos records bytes,
       http_get (Script.fixtures_url ano) Script.fixtures_headers = Ok resp →
       status_code resp = 200%Z →
       json_body resp = Ok body →
       dict_method_get body (py "response") (JList []) = Ok jogos →
       Script.lista_jogos jogos = Ok records →
       write_text UTF8_SIG (csv_lines (pd_DataFrame records)) = (bytes, Ok ()) →
       Script.obter_jogos_brasileirao ano w
       = (mkWorld (<[Script.csv_path ano := bytes]> (files w)) (dirs w)
            (out w ++ [Print (ArquivoCriado ano)]),
          Ok JNull)).
Proof.
  split_and!.
  - intros w' v. apply obter_jogos_returns_None.
  - intros resp. apply obter_jogos_not_200.
  - intros resp body jogos records bytes Hget Hst Hbody Hjogos Hrecords Hwrite.
    rewrite (obter_jogos_200 ano w resp body jogos records); [|done..].
    by rewrite Hwrite.
Qed.

(** ** Round trip: UTF-8 *)

Ltac decide_ltb :=
  repeat match goal with
    | |- context [(?a <? ?b)%N] =>
        first [ rewrite (proj2 (N.ltb_lt a b)) by lia
              | rewrite (proj2 (N.ltb_ge a b)) by lia ]
    | |- context [(?a <=? ?b)%N] =>
        first [ rewrite (proj2 (N.leb_le a b)) by lia
              | rewrite (proj2 (N.leb_gt a b)) by lia ]
    end.

(** The base-64 digits of a code point. *)
Lemma base64_digits (c : N) :
  ∃ q1 r0 q2 r1 q3 r2 : N,
    (c / 64 = q1 ∧ c mod 64 = r0 ∧ c / 4096 = q2 ∧ (c / 64) mod 64 = r1
     ∧ c / 262144 = q3 ∧ (c / 4096) mod 64 = r2
     ∧ c = 64 * q1 + r0 ∧ r0 < 64 ∧ q1 = 64 * q2 + r1 ∧ r1 < 64
     ∧ q2 = 64 * q3 + r2 ∧ r2 < 64)%N.
Proof.
  exists (c / 64)%N, (c mod 64)%N, (c / 64 / 64)%N, ((c / 64) mod 64)%N,
         (c / 64 / 64 / 64)%N, ((c / 64 / 64) mod 64)%N.
  split_and!;
    first [ done | by rewrite !N.Div0.div_div | apply N.div_mod' | by apply N.mod_lt ].
Qed.

Lemma utf8_char_decode c b rest :
  utf8_char c = Some b →
  utf8_decode (b ++ rest) = (c ::.) <$> utf8_decode rest.
Proof.
  unfold utf8_char.
  destruct (base64_digits c)
    as (q1 & r0 & q2 & r1 & q3 & r2 & -> & -> & -> & -> & -> & -> & Hc & ? & Hq1 & ? & Hq2 & ?).
  destruct (N.ltb_spec c 0x80).
  { intros [= <-]. cbn [app utf8_decode]. by decide_ltb. }
  destruct (N.ltb_spec c 0x800).
  { intros [= <-]. cbn [app utf8_decode]. unfold is_cont. decide_ltb.
    cbn [andb]. do 2 f_equal. lia. }
  destruct (N.ltb_spec c 0x10000).
  { destruct (N.leb_spec 0xD800 c); destruct (N.ltb_spec c 0xE000); cbn [andb].
    2-4: intros [= <-]; cbn [app utf8_decode]; unfold is_cont; cbv zeta;
      decide_ltb; cbn [andb negb]; do 2 f_equal; lia.
    done. }
  destruct (N.ltb_spec c 0x110000); [|done].
  intros [= <-]. cbn [app utf8_decode]. unfold is_cont. cbv zeta.
  decide_ltb. cbn [andb]. do 2 f_equal. lia.
Qed.

Lemma utf8_round_trip s bs : utf8_encode s = Some bs → utf8_decode bs = Some s.
Proof.
  revert bs. induction s as [|c s IH]; intros bs; simpl.
  - by intros [= <-].
  - destruct (utf8_char c) as [b|] eqn:Hc; [|done]. simpl.
    destruct (utf8_encode s) as [bs'|]; [|done]. simpl. intros [= <-].
    rewrite (utf8_char_decode c b bs' Hc). by rewrite (IH bs' eq_refl).
Qed.

Lemma utf8_encode_app s t :
  utf8_encode (s ++ t) = b1 ← utf8_encode s; b2 ← utf8_encode t; Some (b1 ++ b2).
Proof.
  induction s as [|c s IH]; simpl.
  - by destruct (utf8_encode t).
  - destruct (utf8_char c) as [b|]; [|done]. simpl. rewrite IH.
    destruct (utf8_encode s) as [b1|]; [|done]. simpl.
    destruct (utf8_encode t) as [b2|]; [|done]. simpl. by rewrite app_assoc.
Qed.

Lemma utf8_char_total c : scalar_value c → is_Some (utf8_char c).
Proof.
  intros [Hmax Hsur]. unfold utf8_char.
  destruct (N.ltb_spec c 0x80); [by eexists|].
  destruct (N.ltb_spec c 0x800); [by eexists|].
  destruct (N.ltb_spec c 0x10000).
  - destruct (N.leb_spec 0xD800 c); destruct (N.ltb_spec c 0xE000); cbn [andb];
      try by eexists. lia.
  - destruct (N.ltb_spec c 0x110000); [by eexists|lia].
Qed.

Lemma utf8_encode_total s : Forall scalar_value s → is_Some (utf8_encode s).
Proof.
  induction 1 as [|c s Hc _ [bs IH]]; simpl; [by eexists|].
  destruct (utf8_char_total c Hc) as [b ->]. simpl. rewrite IH. by eexists.
Qed.

Lemma write_lines_Ok acc lines bytes :
  write_lines acc lines = (bytes, Ok ()) →
  ∃ b, utf8_encode (concat lines) = Some b ∧ bytes = acc ++ b.
Proof.
  revert acc. induction lines as [|l lines IH]; intros acc; simpl.
  - intros [= <-]. exists []. by rewrite app_nil_r.
  - destruct (utf8_encode l) as [b|] eqn:Hl; [|done]. intros Hw.
    destruct (IH _ Hw) as (b' & Hb' & ->). exists (b ++ b').
    rewrite utf8_encode_app, Hl, Hb'. simpl. by rewrite app_assoc.
Qed.

Lemma write_lines_total acc lines :
  Forall (Forall scalar_value) lines → ∃ bytes, write_lines acc lines = (bytes, Ok ()).
Proof.
  intros Hl. revert acc. induction Hl as [|l lines Hl _ IH]; intros acc; simpl.
  - by eexists.
  - destruct (utf8_encode_total l Hl) as [b ->]. apply IH.
Qed.

(** What a successful write of at least one line leaves in the file: the
    mark of the encoding, then the encoded text. *)
Lemma write_text_Ok enc lines bytes :
  lines ≠ [] → write_text enc lines = (bytes, Ok ()) →
  ∃ b, utf8_encode (concat lines) = Some b ∧ bytes = bom enc ++ b.
Proof.
  destruct lines as [|l lines]; [done|]. intros _. simpl.
  destruct (utf8_encode l) as [b|] eqn:Hl; [|done]. intros Hw.
  apply write_lines_Ok in Hw as (b' & Hb' & ->). exists (b ++ b').
  rewrite utf8_encode_app, Hl, Hb'. simpl. by rewrite app_assoc.
Qed.

Lemma write_text_total enc lines :
  Forall (Forall scalar_value) lines → ∃ bytes, write_text enc lines = (bytes, Ok ()).
Proof.
  destruct 1 as [|l lines Hl Hlines]; simpl; [by eexists|].
  destruct (utf8_encode_total l Hl) as [b ->]. by apply write_lines_total.
Qed.

Lemma decode_bom enc b : decode enc (bom enc ++ b) = utf8_decode b.
Proof. by destruct enc. Qed.

(** ** Round trip: CSV text *)

Lemma special_false c : special c = false ↔ c ≠ COMMA ∧ c ≠ QUOTE ∧ c ≠ LF.
Proof.
  unfold special. rewrite !orb_false_iff, !bool_decide_eq_false. tauto.
Qed.

Lemma read_rows_quoted f acc row rest :
  read_rows Quoted acc row (double_quotes f ++ QUOTE :: rest)
  = read_rows QuoteSeen (acc ++ f) row rest.
Proof.
  revert acc. induction f as [|c f IH]; intros acc.
  - simpl. by rewrite app_nil_r.
  - unfold double_quotes in *. rewrite bind_cons.
    case_bool_decide as Hc.
    + subst c. simpl. rewrite IH. by rewrite <- app_assoc.
    + simpl. rewrite bool_decide_eq_false_2 by done. rewrite IH.
      by rewrite <- app_assoc.
Qed.

Lemma read_rows_unquoted f acc row rest :
  plain f →
  read_rows Unquoted acc row (f ++ rest) = read_rows Unquoted (acc ++ f) row rest.
Proof.
  intros Hf. revert acc. induction Hf as [|c f Hc _ IH]; intros acc.
  - simpl. by rewrite app_nil_r.
  - apply special_false in Hc as (? & ? & ?). simpl.
    rewrite !bool_decide_eq_false_2 by done. rewrite IH. by rewrite <- app_assoc.
Qed.

Lemma existsb_special_false f : existsb special f = false → plain f.
Proof.
  induction f as [|c f IH]; simpl; [constructor|].
  intros [? ?]%orb_false_iff. constructor; [done|by apply IH].
Qed.

Lemma read_field m f t row rest :
  m = RowStart ∨ m = FieldStart →
  t = COMMA ∨ t = LF →
  (m = RowStart → t = LF → f ≠ []) →
  read_rows m [] row (csv_field f ++ t :: rest) = after_field t row f rest.
Proof.
  intros Hm Ht Hne. unfold csv_field, after_field.
  destruct (existsb special f) eqn:Hsp.
  - rewrite <- app_comm_cons, <- app_assoc. cbn [app].
    assert (read_rows m [] row (QUOTE :: double_quotes f ++ QUOTE :: t :: rest)
            = read_rows Quoted [] row (double_quotes f ++ QUOTE :: t :: rest)) as ->.
    { by destruct Hm as [-> | ->]. }
    rewrite read_rows_quoted. by destruct Ht as [-> | ->].
  - apply existsb_special_false in Hsp.
    destruct Hsp as [|c f Hc Hf].
    + destruct Hm as [-> | ->], Ht as [-> | ->]; try done. by destruct Hne.
    + apply special_false in Hc as (? & ? & ?).
      assert (read_rows m [] row ((c :: f) ++ t :: rest)
              = read_rows Unquoted [c] row (f ++ t :: rest)) as ->.
      { destruct Hm as [-> | ->]; simpl; by rewrite !bool_decide_eq_false_2 by done. }
      rewrite read_rows_unquoted by done. by destruct Ht as [-> | ->].
Qed.

Lemma read_fields fs row rest :
  fs ≠ [] →
  read_rows FieldStart [] row (str_join [COMMA] (csv_field <$> fs) ++ LF :: rest)
  = (row ++ fs ::.) <$> read_rows RowStart [] [] rest.
Proof.
  revert row. induction fs as [|f fs IH]; intros row Hne; [done|].
  destruct fs as [|g fs].
  - simpl. rewrite read_field; [done|by right|by right|done].
  - change (str_join [COMMA] (csv_field <$> f :: g :: fs))
      with (csv_field f ++ [COMMA] ++ str_join [COMMA] (csv_field <$> g :: fs)).
    rewrite <- !app_assoc. cbn [app].
    rewrite read_field; [|by right|by left|done].
    unfold after_field. rewrite bool_decide_eq_false_2 by done.
    rewrite IH by done. by rewrite <- app_assoc.
Qed.

Lemma read_line fields rest :
  read_rows RowStart [] [] (csv_line fields ++ rest)
  = (fields ::.) <$> read_rows RowStart [] [] rest.
Proof.
  destruct fields as [|f [|g fs]].
  - done.
  - destruct f as [|c f]; [done|].
    change (csv_line [c :: f]) with (csv_field (c :: f) ++ [LF]).
    rewrite <- app_assoc. cbn [app].
    rewrite read_field; [done|by left|by right|done].
  - assert (csv_line (f :: g :: fs)
            = (csv_field f ++ [COMMA] ++ str_join [COMMA] (csv_field <$> g :: fs)) ++ [LF])
      as -> by by destruct f.
    rewrite <- !app_assoc. cbn [app].
    rewrite read_field; [|by left|by left|done].
    unfold after_field. rewrite bool_decide_eq_false_2 by done.
    by rewrite read_fields.
Qed.

(** Reading the lines of a table gives the table back. *)
Lemma read_csv_lines (table : list (list pystr)) :
  read_csv (concat (csv_line <$> table)) = Some table.
Proof.
  unfold read_csv. induction table as [|fields table IH]; [done|].
  rewrite fmap_cons. cbn [concat]. by rewrite read_line, IH.
Qed.

Lemma csv_field_plain f : plain f → csv_field f = f.
Proof.
  intros Hf. unfold csv_field. destruct (existsb special f) eqn:Hsp; [|done].
  apply existsb_exists in Hsp as (c & Hc & Hsp). apply list_elem_of_In in Hc.
  unfold plain in Hf. rewrite Forall_forall in Hf. by rewrite (Hf c Hc) in Hsp.
Qed.

(** Fields that need no quoting are written as they are, with commas
    between them. *)
Lemma csv_line_plain fields :
  Forall plain fields → fields ≠ [[]] →
  csv_line fields = str_join [COMMA] fields ++ [LF].
Proof.
  intros Hplain Hne.
  assert (Hsame : csv_field <$> fields = fields).
  { clear Hne. induction Hplain as [|f fields Hf _ IH]; [done|].
    by rewrite fmap_cons, IH, csv_field_plain. }
  unfold csv_line. rewrite Hsame. by destruct fields as [|[|] [|]].
Qed.

(** ** Round trip: the file *)

Lemma scalar_ascii c : (c < 0x80)%N → scalar_value c.
Proof. unfold scalar_value. lia. Qed.

(** Closes [Forall scalar_value l] for a list [l] of variables with a
    proof in the context and of ASCII constants. *)
Ltac scalar_list :=
  repeat first
    [ apply Forall_nil_2
    | apply Forall_cons_2; [first [assumption | apply scalar_ascii; reflexivity]|] ].

Lemma csv_field_scalar f : Forall scalar_value f → Forall scalar_value (csv_field f).
Proof.
  intros Hf. unfold csv_field. destruct (existsb special f); [|done].
  constructor; [apply scalar_ascii; reflexivity|]. apply Forall_app. split.
  - unfold double_quotes. apply Forall_bind. eapply Forall_impl; [exact Hf|].
    intros c Hc. simpl. case_bool_decide; scalar_list.
  - scalar_list.
Qed.

Lemma str_join_scalar sep parts :
  Forall scalar_value sep → Forall (Forall scalar_value) parts →
  Forall scalar_value (str_join sep parts).
Proof.
  intros Hsep. induction 1 as [|p parts Hp Hparts IH]; [constructor|].
  destruct parts as [|q parts]; [done|].
  change (str_join sep (p :: q :: parts)) with (p ++ sep ++ str_join sep (q :: parts)).
  rewrite !Forall_app. by split_and!.
Qed.

Lemma csv_line_scalar fields :
  Forall (Forall scalar_value) fields → Forall scalar_value (csv_line fields).
Proof.
  intros Hf.
  assert (Hgen : Forall scalar_value (str_join [COMMA] (csv_field <$> fields) ++ [LF])).
  { apply Forall_app. split.
    - apply str_join_scalar; [scalar_list|].
      apply Forall_fmap. eapply Forall_impl; [exact Hf|]. apply csv_field_scalar.
    - scalar_list. }
  destruct fields as [|[|] [|]]; try done. scalar_list.
Qed.

Section RoundTrip.
Context `{Externals}.

Lemma csv_lines_table df : csv_lines df = csv_line <$> table_of df.
Proof. unfold csv_lines, table_of. by rewrite fmap_cons, <- list_fmap_compose. Qed.

Lemma to_csv_total df path enc w :
  Forall (Forall (Forall scalar_value)) (table_of df) →
  (to_csv df path enc w).2 = Ok ().
Proof.
  intros Hsc. unfold to_csv.
  assert (Hlines : Forall (Forall scalar_value) (csv_lines df)).
  { rewrite csv_lines_table. apply Forall_fmap. eapply Forall_impl; [exact Hsc|].
    apply csv_line_scalar. }
  by destruct (write_text_total enc (csv_lines df) Hlines) as [bytes ->].
Qed.

Lemma to_csv_reads_back df path enc w :
  (to_csv df path enc w).2 = Ok () →
  ∃ bytes, files (to_csv df path enc w).1 !! path = Some bytes
           ∧ read_file enc bytes = Some (table_of df).
Proof.
  unfold to_csv. destruct (write_text enc (csv_lines df)) as [bytes [[]|e]] eqn:Hw; [|done].
  intros _. exists bytes. cbn [fst files]. split; [by rewrite lookup_insert_eq|].
  apply write_text_Ok in Hw as (b & Hb & ->); [|done].
  rewrite csv_lines_table in Hb.
  unfold read_file. rewrite decode_bom, (utf8_round_trip _ _ Hb).
  apply read_csv_lines.
Qed.

Lemma row_text_string df row j s :
  row !! j = Some (JStr s) → row_text df row !! j = Some s.
Proof. intros Hj. unfold row_text. by rewrite list_lookup_imap, Hj. Qed.
End RoundTrip.

(** C7: the file that [to_csv] writes for the frame of a list of flat
    records, in either encoding, reads back as the table of the header and
    of the text of the cells; the write succeeds when that text is made of
    Unicode scalar values; and a value that is a string, with ASCII or
    other characters, is found again as it was, at the place of its record
    and field, in a frame whose columns are the keys of the record, as
    the frames of both mappers are. *)
Theorem csv_round_trip `{Externals}
    (records : list pydict) (enc : encoding) (path : pystr) (w : World) :
  let df := pd_DataFrame records in
  let table := columns df :: (row_text df <$> rows df) in
  (Forall (Forall (Forall scalar_value)) table → (to_csv df path enc w).2 = Ok ())
  ∧ ((to_csv df path enc w).2 = Ok () →
       ∃ bytes, files (to_csv df path enc w).1 !! path = Some bytes
                ∧ read_file enc bytes = Some table)
  ∧ (∀ i r j k s,
       records !! i = Some r → keys r = columns df → NoDup (keys r) →
       r !! j = Some (k, JStr s) →
       ∃ row, table !! S i = Some row ∧ row !! j = Some s)
  ∧ (∀ ms r,
       CBF.processed_matches (JList ms) = Ok records
       ∨ Script.lista_jogos (JList ms) = Ok records →
       r ∈ records → keys r = columns df ∧ NoDup (keys r)).
Proof.
  intros df table. split_and!.
  - apply to_csv_total.
  - apply to_csv_reads_back.
  - subst table df. intros i r j k s Hi Hkeys Hnd Hj.
    set (df := pd_DataFrame records) in *.
    exists (row_text df (r.*2)). split.
    + change ((row_text df <$> rows df) !! i = Some (row_text df (r.*2))).
      rewrite list_lookup_fmap.
      unfold df at 2. by rewrite (rows_lookup records i r Hnd (eq_sym Hkeys) Hi).
    + apply row_text_string. by rewrite list_lookup_fmap, Hj.
  - intros ms r Hrun Hr.
    assert (∃ tbl, NoDup (fname <$> tbl) ∧ for_each (flatten tbl) ms = Ok records)
      as (tbl & Hnd & Hrecords).
    { destruct Hrun as [Hrun|Hrun].
      - exists cbf_table. split; [apply cbf_names_NoDup|].
        by rewrite <- processed_matches_list.
      - exists script_table. split; [apply script_names_NoDup|].
        by rewrite <- lista_jogos_list. }
    destruct (mapper_records _ _ _ Hrecords) as [Hlen Hkeys].
    destruct (mapper_frame _ _ _ Hnd Hrecords) as (_ & Hcols & _).
    rewrite Forall_forall in Hkeys. rewrite (Hkeys r Hr). split; [|done].
    symmetry. apply Hcols. intros ->. destruct records; [|done].
    by apply elem_of_nil in Hr.
Qed.

(** ** The theorems at concrete inputs *)

Lemma complete_match_is_complete : complete cbf_table complete_match.
Proof. repeat constructor; by eexists _, _. Qed.

Lemma flamengo_palmeiras_is_complete : complete script_table flamengo_palmeiras.
Proof. repeat constructor; by eexists _, _. Qed.

Lemma match_missing_key_is_incomplete : ¬ complete cbf_table match_missing_key.
Proof.
  intros Hc. unfold complete in Hc. rewrite Forall_lookup in Hc.
  destruct (Hc 11%nat _ eq_refl) as (v & x & Hv & _). by vm_compute in Hv.
Qed.

Lemma match_missing_key_is_nested : nested_objects match_missing_key.
Proof.
  split; [by eexists|]. intros k v Hk Hv.
  repeat (apply elem_of_cons in Hk as [-> | Hk];
          [vm_compute in Hv; injection Hv as <-; by eexists|]).
  by apply elem_of_nil in Hk.
Qed.

(** Two complete matches give two records and a frame of two rows. *)
Lemma mapper_one_record_per_match_witness :
  ∃ recs, CBF.processed_matches (JList [complete_match; complete_match]) = Ok recs
          ∧ length recs = 2%nat
          ∧ length (rows (pd_DataFrame recs)) = 2%nat.
Proof.
  destruct (mapper_one_record_per_match [complete_match; complete_match])
    as (Hrecs & _ & Htotal & _).
  destruct Htotal as [recs Hrun].
  { constructor; [apply complete_match_is_complete|].
    constructor; [apply complete_match_is_complete|constructor]. }
  exists recs. destruct (Hrecs recs Hrun) as [Hlen _].
  split; [done|]. split; [done|]. by rewrite rows_length.
Defined.

(** The listing holds the seasons 2022 and 2023, in this order, and then
    an entry that is [null]: the id of 2023 is returned. *)
Lemma resolver_selects_first_match_witness :
  @CBF.get_competition_id sample_externals
    (cbf_network
       (mkResponse 200
          (Ok (JList [serie_a (py "2022") (py "br22"); serie_a (py "2023") (py "br23");
                      JNull])))
       one_match)
    sample_exporter 2023
  = Ok (JStr (py "br23")).
Proof.
  destruct (@resolver_selects_first_match sample_externals
              (cbf_network
                 (mkResponse 200
                    (Ok (JList [serie_a (py "2022") (py "br22");
                                serie_a (py "2023") (py "br23"); JNull])))
                 one_match)
              sample_exporter 2023
              (mkResponse 200
                 (Ok (JList [serie_a (py "2022") (py "br22");
                             serie_a (py "2023") (py "br23"); JNull])))
              [serie_a (py "2022") (py "br22"); serie_a (py "2023") (py "br23"); JNull])
    as (Hfirst & _ & _).
  - by vm_compute.
  - simpl. lia.
  - reflexivity.
  - destruct (Hfirst [serie_a (py "2022") (py "br22")] (serie_a (py "2023") (py "br23"))
                [JNull]) as (Hid & _ & _).
    + reflexivity.
    + constructor; [|constructor]. exists (py "Campeonato Brasileiro").
      split; [reflexivity|]. intros _. exists (JStr (py "A")).
      split; [reflexivity|]. intros _. by exists (JStr (py "2022")).
    + constructor; [|constructor].
      intros (name & _ & _ & _ & Hseason). by vm_compute in Hseason.
    + rewrite Hid; [reflexivity|].
      exists (py "Campeonato Brasileiro"). split; [reflexivity|].
      split; [by exists (py "campeonato "), []|]. by split.
Defined.

(** C3 as stated fails here: the listing holds a competition whose name is
    [null] and then the competition of 2023.  The second meets the three
    conditions and the first does not, yet no identifier is returned:
    [comp['name'].lower()] raises [AttributeError] on the first.  On the
    listing of the first alone, where no competition meets the conditions,
    the error is that [AttributeError] and not the not-found one. *)
Lemma unnamed_competition_stops_the_resolver :
  @meets_conditions sample_externals 2023 (serie_a (py "2023") (py "br23"))
  ∧ ¬ @meets_conditions sample_externals 2023 unnamed_competition
  ∧ @CBF.get_competition_id sample_externals
      (cbf_network
         (mkResponse 200
            (Ok (JList [unnamed_competition; serie_a (py "2023") (py "br23")])))
         one_match)
      sample_exporter 2023
    = Err AttributeError
  ∧ @CBF.get_competition_id sample_externals
      (cbf_network (mkResponse 200 (Ok (JList [unnamed_competition]))) one_match)
      sample_exporter 2023
    = Err AttributeError.
Proof.
  split_and!.
  - exists (py "Campeonato Brasileiro"). split; [reflexivity|].
    split; [by exists (py "campeonato "), []|]. by split.
  - intros (name & Hname & _). by vm_compute in Hname.
  - by vm_compute.
  - by vm_compute.
Qed.

(** A 404 for the matches: [export_season] raises it and the files are as
    before; [obter_jogos_brasileirao] prints and returns. *)
Lemma failed_request_writes_no_file_witness :
  (∃ w' e',
     @CBF.export_season sample_externals
       (cbf_network ok_listing (mkResponse 404 (Err JSONDecodeError)))
       sample_exporter 2023 (py "exports") empty_world = (w', Err e')
     ∧ files w' = files empty_world
     ∧ (files empty_world !! py "exports" = None → e' = HTTPError 404))
  ∧ @Script.obter_jogos_brasileirao sample_externals
      (script_network (mkResponse 404 (Err JSONDecodeError))) 2023 empty_world
    = (mkWorld ∅ ∅ [Print (ErroApi 404)], Ok JNull).
Proof.
  destruct (@failed_request_writes_no_file sample_externals
              (cbf_network ok_listing (mkResponse 404 (Err JSONDecodeError))))
    as [Hcbf _].
  destruct (@failed_request_writes_no_file sample_externals
              (script_network (mkResponse 404 (Err JSONDecodeError))))
    as [_ Hscript].
  split.
  - apply (Hcbf sample_exporter 2023%Z (py "exports") empty_world (JStr (py "br23"))
             (mkResponse 404 (Err JSONDecodeError))).
    + by vm_compute.
    + by vm_compute.
    + simpl. lia.
  - apply (Hscript 2023%Z empty_world (mkResponse 404 (Err JSONDecodeError))).
    + reflexivity.
    + simpl. lia.
Defined.

(** C2 as stated fails here: the record has no [revenue], yet what the
    Mapper raises is the [TypeError] of [match['referee']['name']] on a
    referee that is [None], which is evaluated first. *)
Lemma missing_key_can_raise_TypeError :
  getitem match_without_revenue (py "revenue") = Err (KeyError (py "revenue"))
  ∧ getitem match_without_revenue (py "referee") = Ok JNull
  ∧ CBF.process_matches (JList [match_without_revenue]) = Err TypeError.
Proof. by vm_compute. Qed.

(** The second of two matches has no [revenue]: [KeyError], no file. *)
Lemma missing_field_aborts_before_write_witness :
  ∃ e, CBF.process_matches (JList [complete_match; match_missing_key]) = Err e
       ∧ (∃ k, e = KeyError k)
       ∧ ∃ w' e',
           @CBF.export_season sample_externals
             (cbf_network ok_listing
                (mkResponse 200 (Ok (JList [complete_match; match_missing_key]))))
             sample_exporter 2023 (py "exports") empty_world = (w', Err e')
           ∧ files w' = files empty_world
           ∧ e' = e.
Proof.
  destruct (@missing_field_aborts_before_write sample_externals
              (cbf_network ok_listing
                 (mkResponse 200 (Ok (JList [complete_match; match_missing_key]))))
              sample_exporter 2023 (py "exports") empty_world (JStr (py "br23"))
              (mkResponse 200 (Ok (JList [complete_match; match_missing_key])))
              [complete_match; match_missing_key])
    as (e & Hproc & Hkey & w' & e' & Hrun & Hfiles & He').
  - by vm_compute.
  - by vm_compute.
  - simpl. lia.
  - reflexivity.
  - apply Exists_cons_tl, Exists_cons_hd, match_missing_key_is_incomplete.
  - exists e. split; [done|]. split.
    + apply Hkey. constructor; [|constructor; [apply match_missing_key_is_nested|constructor]].
      split; [by eexists|]. intros k v Hk Hv.
      repeat (apply elem_of_cons in Hk as [-> | Hk];
              [vm_compute in Hv; injection Hv as <-; by eexists|]).
      by apply elem_of_nil in Hk.
    + exists w', e'. split; [done|]. split; [done|]. by apply He'.
Defined.

(** C4 as stated fails here: the request for the matches is answered with
    status 300 and a body of one match; [raise_for_status] lets it pass and
    the file is written. *)
Lemma status_300_is_exported :
  @http_get (cbf_network ok_listing (mkResponse 300 (Ok (JList [complete_match]))))
    (@CBF.matches_url sample_externals sample_exporter (JStr (py "br23")))
    (CBF.headers sample_exporter)
  = Ok (mkResponse 300 (Ok (JList [complete_match])))
  ∧ is_Some
      (files (@CBF.export_season sample_externals
                (cbf_network ok_listing (mkResponse 300 (Ok (JList [complete_match]))))
                sample_exporter 2023 (py "exports") empty_world).1
       !! @CBF.export_path
            (cbf_network ok_listing (mkResponse 300 (Ok (JList [complete_match]))))
            2023 (py "exports")).
Proof.
  split; [by vm_compute|].
  destruct (CBF.process_matches (JList [complete_match])) as [df|e] eqn:Hdf;
    [|by vm_compute in Hdf].
  rewrite (@export_season_with_frame sample_externals _ sample_exporter 2023
             (py "exports") empty_world df).
  - rewrite lookup_insert_eq. by eexists.
  - reflexivity.
  - rewrite <- Hdf. by vm_compute.
Qed.

(** C5 as stated fails here: the API answers with no fixture; the file
    holds the mark and a line terminator, not the header row. *)
Lemma empty_export_is_not_the_header_row :
  files (@Script.obter_jogos_brasileirao sample_externals
           (script_network (mkResponse 200 (Ok (JDict [(py "response", JList [])]))))
           2023 empty_world).1 !! Script.csv_path 2023
  = Some [0xEF; 0xBB; 0xBF; 0x0A]%N
  ∧ (bom UTF8_SIG ++.) <$> utf8_encode (csv_line (fname <$> script_table))
    ≠ Some [0xEF; 0xBB; 0xBF; 0x0A]%N.
Proof.
  split; [|by vm_compute].
  rewrite (@obter_jogos_200 sample_externals
             (script_network (mkResponse 200 (Ok (JDict [(py "response", JList [])]))))
             2023 empty_world
             (mkResponse 200 (Ok (JDict [(py "response", JList [])])))
             (JDict [(py "response", JList [])]) (JList []) []); [|done..].
  rewrite write_text_no_record. simpl. by rewrite lookup_insert_eq.
Qed.

(** No match and no fixture: a line terminator in the first variant, the
    mark and a line terminator in the second. *)
Lemma empty_export_is_a_blank_line_witness :
  files (@CBF.export_season sample_externals
           (cbf_network ok_listing (mkResponse 200 (Ok (JList []))))
           sample_exporter 2023 (py "exports") empty_world).1
  = <[@CBF.export_path (cbf_network ok_listing (mkResponse 200 (Ok (JList []))))
        2023 (py "exports") := [LF]]> ∅
  ∧ @Script.obter_jogos_brasileirao sample_externals
      (script_network (mkResponse 200 (Ok (JDict [(py "response", JList [])]))))
      2023 empty_world
    = (mkWorld (<[Script.csv_path 2023 := [0xEF; 0xBB; 0xBF; LF]%N]> ∅) ∅
         [Print (ArquivoCriado 2023)], Ok JNull).
Proof.
  destruct (@empty_export_is_a_blank_line sample_externals
              (cbf_network ok_listing (mkResponse 200 (Ok (JList [])))))
    as [Hcbf _].
  destruct (@empty_export_is_a_blank_line sample_externals
              (script_network (mkResponse 200 (Ok (JDict [(py "response", JList [])])))))
    as [_ Hscript].
  split.
  - apply (Hcbf sample_exporter 2023%Z (py "exports") empty_world (JStr (py "br23"))
             (mkResponse 200 (Ok (JList [])))).
    + reflexivity.
    + by vm_compute.
    + by vm_compute.
    + simpl. lia.
    + reflexivity.
  - apply (Hscript 2023%Z empty_world
             (mkResponse 200 (Ok (JDict [(py "response", JList [])])))
             (JDict [(py "response", JList [])])).
    + reflexivity.
    + reflexivity.
    + reflexivity.
    + reflexivity.
Defined.

(** The fixture of the example, fetched for 2023 into an empty world. *)
Lemma example_row_is_written_witness :
  ∃ header_bytes row_bytes,
    utf8_encode (py "Data,Time Casa,Time Visitante,Placar Casa,Placar Visitante,Est"
                 ++ [225%N] ++ py "dio" ++ [LF]) = Some header_bytes
    ∧ utf8_encode (py "2023-04-15,Flamengo,Palmeiras,2,1,Maracan" ++ [227%N; LF])
      = Some row_bytes
    ∧ @Script.obter_jogos_brasileirao sample_externals
        (script_network
           (mkResponse 200 (Ok (JDict [(py "response", JList [flamengo_palmeiras])]))))
        2023 empty_world
      = (mkWorld (<[Script.csv_path 2023 :=
                      [0xEF; 0xBB; 0xBF]%N ++ header_bytes ++ row_bytes]> ∅) ∅
           [Print (ArquivoCriado 2023)], Ok JNull).
Proof.
  destruct (@example_row_is_written sample_externals
              (script_network
                 (mkResponse 200
                    (Ok (JDict [(py "response", JList [flamengo_palmeiras])])))))
    as (_ & _ & hb & rb & Hh & Hr & Hrun).
  exists hb, rb. split; [done|]. split; [done|].
  apply (Hrun 2023%Z empty_world
           (mkResponse 200 (Ok (JDict [(py "response", JList [flamengo_palmeiras])])))).
  - reflexivity.
  - reflexivity.
  - reflexivity.
Defined.

(** The second of two fixtures gives the second record and the third line. *)
Lemma mapper_preserves_order_witness :
  ∃ recs r,
    Script.lista_jogos (JList [flamengo_palmeiras_timed; flamengo_palmeiras]) = Ok recs
    ∧ Script.processar_jogo flamengo_palmeiras = Ok r
    ∧ recs !! 1%nat = Some r
    ∧ @csv_lines sample_externals (pd_DataFrame recs) !! 2%nat
      = Some (csv_line (@row_text sample_externals (pd_DataFrame recs) (r.*2))).
Proof.
  destruct (Script.lista_jogos (JList [flamengo_palmeiras_timed; flamengo_palmeiras]))
    as [recs|e] eqn:Hrecs; [|by vm_compute in Hrecs].
  destruct (@mapper_preserves_order sample_externals
              [flamengo_palmeiras_timed; flamengo_palmeiras] 1 flamengo_palmeiras)
    as [_ Hscript]; [reflexivity|].
  destruct (Hscript recs Hrecs) as (r & Hr & Hi & _ & Hline).
  by exists recs, r.
Defined.

(** The time of day of the date is dropped. *)
Lemma data_field_is_date_prefix_witness :
  ∃ r, Script.processar_jogo flamengo_palmeiras_timed = Ok r
       ∧ dict_get r (py "Data") = Some (JStr (py "2023-04-15")).
Proof.
  destruct data_field_is_date_prefix as (Hprefix & _ & Htotal & _).
  destruct (Htotal flamengo_palmeiras_timed) as [r Hr].
  { repeat constructor; by eexists _, _. }
  exists r. split; [done|].
  apply (Hprefix flamengo_palmeiras_timed r (py "2023-04-15T16:00:00-03:00") Hr).
  reflexivity.
Defined.

(** A 500: the message, [None], and the world otherwise as it was. *)
Lemma obter_jogos_returns_only_None_witness :
  @Script.obter_jogos_brasileirao sample_externals
    (script_network (mkResponse 500 (Err JSONDecodeError))) 2023 empty_world
  = (mkWorld ∅ ∅ [Print (ErroApi 500)], Ok JNull).
Proof.
  destruct (@obter_jogos_returns_only_None sample_externals
              (script_network (mkResponse 500 (Err JSONDecodeError))) 2023 empty_world)
    as (_ & Hnot200 & _).
  apply (Hnot200 (mkResponse 500 (Err JSONDecodeError))).
  - reflexivity.
  - simpl. lia.
Defined.

(** The record of the example, written with the mark and read back: the
    venue, with its [ã], is found again. *)
Lemma csv_round_trip_witness :
  ∃ bytes,
    files (@to_csv sample_externals (pd_DataFrame [example_record])
             (Script.csv_path 2023) UTF8_SIG empty_world).1 !! Script.csv_path 2023
    = Some bytes
    ∧ read_file UTF8_SIG bytes
      = Some [[py "Data"; py "Time Casa"; py "Time Visitante"; py "Placar Casa";
               py "Placar Visitante"; py "Est" ++ [225%N] ++ py "dio"];
              [py "2023-04-15"; py "Flamengo"; py "Palmeiras"; py "2"; py "1";
               py "Maracan" ++ [227%N]]].
Proof.
  destruct (@csv_round_trip sample_externals [example_record] UTF8_SIG
              (Script.csv_path 2023) empty_world) as (_ & Hread & _).
  destruct Hread as (bytes & Hfile & Hback); [by vm_compute|].
  exists bytes. split; [done|]. by rewrite Hback.
Defined.

(** * Further properties of the two scripts *)

(** ** What a run may change *)

Lemma changes_only_refl path w : changes_only path w w.
Proof. by split_and!. Qed.

Lemma changes_only_trans path w1 w2 w3 :
  changes_only path w1 w2 → changes_only path w2 w3 → changes_only path w1 w3.
Proof.
  intros (Hf1 & Hd1 & Ho1) (Hf2 & Hd2 & Ho2). split_and!.
  - intros p Hp. by rewrite Hf2, Hf1.
  - set_solver.
  - by etrans.
Qed.

Lemma respects_bind path {A B} (m : prog A) (f : A → prog B) :
  respects (changes_only path) m → (∀ a, respects (changes_only path) (f a)) →
  respects (changes_only path) (m ≫= f).
Proof.
  intros Hm Hf w. unfold mbind, prog_bind. specialize (Hm w).
  destruct (m w) as [w' [a|e]]; [|done]. simpl in Hm.
  eapply changes_only_trans; [exact Hm|apply Hf].
Qed.

Lemma respects_try path {A} (body : prog A) (handler : exn → prog A) :
  respects (changes_only path) body → (∀ e, respects (changes_only path) (handler e)) →
  respects (changes_only path) (try_except body handler).
Proof.
  intros Hb Hh w. unfold try_except. specialize (Hb w).
  destruct (body w) as [w' [a|e]]; [done|]. simpl in Hb.
  eapply changes_only_trans; [exact Hb|apply Hh].
Qed.

Lemma respects_lift path {A} (r : result A) : respects (changes_only path) (lift r).
Proof. intros w. apply changes_only_refl. Qed.

Lemma respects_ret path {A} (a : A) : respects (changes_only path) (mret a).
Proof. intros w. apply changes_only_refl. Qed.

Lemma respects_raise path {A} (e : exn) : respects (changes_only path) (@raise A e).
Proof. intros w. apply changes_only_refl. Qed.

Lemma respects_emit path ev : respects (changes_only path) (emit ev).
Proof. intros w. split_and!; [done..|]. by apply prefix_app_r. Qed.

Lemma respects_makedirs path d : respects (changes_only path) (makedirs d).
Proof.
  intros w. unfold makedirs. destruct (files w !! d); [apply changes_only_refl|].
  split_and!; [done| |done]. simpl. set_solver.
Qed.

Lemma respects_to_csv `{Externals} df path enc :
  respects (changes_only path) (to_csv df path enc).
Proof.
  intros w. unfold to_csv. destruct (write_text enc (csv_lines df)) as [bytes r].
  split_and!; [|done..]. intros p Hp. simpl. by rewrite lookup_insert_ne.
Qed.

Ltac respects :=
  repeat first
    [ apply respects_lift | apply respects_emit | apply respects_raise
    | apply respects_ret | apply respects_makedirs | apply respects_to_csv
    | apply respects_bind; [|intros ?]
    | apply respects_try; [|intros ?] ].

(** ** The summary log *)

Section Summary.
Context `{Externals}.

Lemma respects_summary path df : respects (changes_only path) (CBF._log_export_summary df).
Proof. unfold CBF._log_export_summary. respects. Qed.

Lemma summary_keeps_dirs df w : dirs (CBF._log_export_summary df w).1 = dirs w.
Proof.
  unfold CBF._log_export_summary, mbind, prog_bind, emit, lift. cbn [files dirs out].
  repeat (match goal with
          | |- context [match ?x with Ok _ => _ | Err _ => _ end] =>
              lazymatch x with
              | Ok _ => fail
              | Err _ => fail
              | _ => destruct x; cbn [fst files dirs out]
              end
          end); done.
Qed.

(** X1: the summary only writes to the log: the files and the directories
    are as before, and what was logged before is still there. *)
Theorem summary_is_observational (df : DataFrame) (w : World) :
  files (CBF._log_export_summary df w).1 = files w
  ∧ dirs (CBF._log_export_summary df w).1 = dirs w
  ∧ out w `prefix_of` out (CBF._log_export_summary df w).1.
Proof.
  split_and!.
  - apply keeps_files_summary.
  - apply summary_keeps_dirs.
  - by destruct (respects_summary [] df w) as (_ & _ & ?).
Qed.

(** On a frame that has no column [data] (the frame of no match has no
    column at all) the summary logs its first two lines and raises
    [KeyError 'data']. *)
Lemma summary_without_data (df : DataFrame) (w : World) :
  py "data" ∉ columns df →
  CBF._log_export_summary df w
  = (logged w [LogInfo SummaryHeader;
               LogInfo (TotalMatches (Z.of_nat (length (rows df))))],
     Err (KeyError (py "data"))).
Proof.
  intros Hno. unfold CBF._log_export_summary, mbind, prog_bind, emit, lift, logged.
  cbn [files dirs out]. unfold frame_getitem.
  destruct (list_find (λ c', c' = py "data") (columns df)) as [[j c]|] eqn:Hfind.
  - apply list_find_Some in Hfind as (Hj & -> & _).
    destruct Hno. by eapply list_elem_of_lookup_2.
  - by rewrite <- app_assoc.
Qed.

End Summary.

(** ** [export_season], step by step *)

Section ExportRuns.
Context `{Externals} `{Environment}.

Lemma respects_get_matches path self cid :
  respects (changes_only path) (CBF.get_matches self cid).
Proof. unfold CBF.get_matches. respects. Qed.

Lemma respects_export_season self year dir :
  respects (changes_only (CBF.export_path year dir)) (CBF.export_season self year dir).
Proof.
  unfold CBF.export_season. respects;
    first [ apply respects_get_matches | apply respects_summary
          | destruct (is_request_exception _); respects ].
Qed.

(** A run of [export_season] that raises went through one of the two
    handlers: the line for the exception is the last of the log. *)
Lemma export_season_Err_inv self year dir w w' e :
  CBF.export_season self year dir w = (w', Err e) →
  ∃ w1, w' = logged w1 [error_line e]
        ∧ changes_only (CBF.export_path year dir) w w1.
Proof.
  unfold CBF.export_season, try_except.
  match goal with |- context [match ?b w with _ => _ end] =>
    assert (changes_only (CBF.export_path year dir) w (b w).1) as Hbody;
      [|destruct (b w) as [w1 [p|e1]]]
  end.
  { match goal with |- changes_only _ _ (?b w).1 =>
      assert (respects (changes_only (CBF.export_path year dir)) b) as Hb; [|apply Hb]
    end.
    respects; first [apply respects_get_matches | apply respects_summary]. }
  - done.
  - unfold error_line, logged.
    destruct (is_request_exception e1) eqn:Hreq; intros [= <- <-];
      exists w1; by rewrite Hreq.
Qed.

(** A run of [export_season] that returns went through every step. *)
Lemma export_season_Ok_inv self year dir w w' p :
  CBF.export_season self year dir w = (w', Ok p) →
  ∃ cid resp matches n df bytes,
    files w !! dir = None
    ∧ CBF.get_competition_id self year = Ok cid
    ∧ http_get (CBF.matches_url self cid) (CBF.headers self) = Ok resp
    ∧ raise_for_status resp = Ok ()
    ∧ json_body resp = Ok matches
    ∧ len matches = Ok n
    ∧ CBF.process_matches matches = Ok df
    ∧ write_text UTF8 (csv_lines df) = (bytes, Ok ())
    ∧ p = CBF.export_path year dir
    ∧ CBF._log_export_summary df
        (mkWorld (<[p := bytes]> (files w)) ({[dir]} ∪ dirs w)
           (out w ++ [LogInfo (FetchingCompetitionId year); LogInfo FetchingMatches;
                      LogInfo (Retrieved n); LogInfo ProcessingMatches;
                      LogInfo (Exported p)]))
      = (w', Ok ()).
Proof.
  unfold CBF.export_season, try_except.
  unfold mbind, prog_bind, makedirs, emit, lift, raise, CBF.get_matches.
  destruct (files w !! dir) as [b|] eqn:Hdir; cbn [files dirs out].
  { by destruct (is_request_exception _). }
  unfold mbind, prog_bind, lift, emit, mret, prog_ret. cbn [files dirs out].
  destruct (CBF.get_competition_id self year) as [cid|e] eqn:Hcid;
    [|by destruct (is_request_exception _)].
  destruct (http_get _ _) as [resp|e] eqn:Hget; [|by destruct (is_request_exception _)].
  destruct (raise_for_status resp) as [[]|e] eqn:Hst;
    [|by destruct (is_request_exception _)].
  destruct (json_body resp) as [matches|e] eqn:Hbody;
    [|by destruct (is_request_exception _)].
  destruct (len matches) as [n|e] eqn:Hlen; [|by destruct (is_request_exception _)].
  cbn [files dirs out].
  destruct (CBF.process_matches matches) as [df|e] eqn:Hdf;
    [|by destruct (is_request_exception _)].
  unfold to_csv. cbn [files dirs out].
  destruct (write_text UTF8 (csv_lines df)) as [bytes [[]|e]] eqn:Hw;
    [|by destruct (is_request_exception _)].
  cbn [files dirs out]. rewrite <- !app_assoc. cbn [app].
  destruct (CBF._log_export_summary df _) as [w4 [[]|e]] eqn:Hsum;
    [|by destruct (is_request_exception _)].
  intros [= <- <-]. by exists cid, resp, matches, n, df, bytes.
Qed.
End ExportRuns.

(** ** What [export_season] and [main] guarantee *)




(** X2: the path that [export_season] returns is the path that it has
    built from the year, the clock and the directory, the file at that
    path holds the bytes just written for the frame of the matches, and
    the directory has been made; nothing stood at the path of the
    directory before. *)
Theorem export_season_returns_the_written_file `{Externals} `{Environment}
    (self : CBF.CBFDataExporter) (year : Z) (dir : pystr) (w w' : World) (p : pystr) :
  CBF.export_season self year dir w = (w', Ok p) →
  p = CBF.export_path year dir
  ∧ files w !! dir = None
  ∧ dirs w' = {[dir]} ∪ dirs w
  ∧ ∃ df bytes,
      exported_frame self year = Ok df
      ∧ write_text UTF8 (csv_lines df) = (bytes, Ok ())
      ∧ files w' = <[p := bytes]> (files w).
Proof.
  intros (cid & resp & matches & n & df & bytes & Hdir & Hcid & Hget & Hst & Hbody
          & Hlen & Hdf & Hw & -> & Hsum)%export_season_Ok_inv.
  pose proof (keeps_files_summary df) as Hfiles.
  pose proof (summary_keeps_dirs df) as Hdirs.
  match type of Hsum with CBF._log_export_summary df ?w3 = _ =>
    specialize (Hfiles w3); specialize (Hdirs w3)
  end.
  rewrite Hsum in Hfiles, Hdirs. simpl in Hfiles, Hdirs.
  split_and!; [done..|]. exists df, bytes. split_and!; [|done..].
  unfold exported_frame. rewrite Hcid. simpl. rewrite Hget. simpl. rewrite Hst. simpl.
  rewrite Hbody. simpl. by rewrite Hlen.
Qed.

(** X3: whatever happens in [export_season], no file but the one at the
    path of the export is changed, no directory is removed and the log
    only grows. *)
Theorem export_season_changes_only_its_file `{Externals} `{Environment}
    (self : CBF.CBFDataExporter) (year : Z) (dir : pystr) (w : World) :
  (∀ p, p ≠ CBF.export_path year dir →
        files (CBF.export_season self year dir w).1 !! p = files w !! p)
  ∧ dirs w ⊆ dirs (CBF.export_season self year dir w).1
  ∧ out w `prefix_of` out (CBF.export_season self year dir w).1.
Proof. apply respects_export_season. Qed.

(** X4: when [export_season] raises, the last line of its log is the error
    line of the exception that it raises: "API request failed" for an
    exception of [requests], "Export failed" for any other; the lines
    before it are those of the run. *)
Theorem export_season_logs_what_it_raises `{Externals} `{Environment}
    (self : CBF.CBFDataExporter) (year : Z) (dir : pystr) (w w' : World) (e : exn) :
  CBF.export_season self year dir w = (w', Err e) →
  ∃ lines,
    out w' = out w ++ lines
             ++ [LogError (if is_request_exception e
                           then ApiRequestFailed e else ExportFailed e)].
Proof.
  intros (w1 & -> & _ & _ & [lines Hlines])%export_season_Err_inv.
  exists lines. unfold logged, error_line. simpl. by rewrite Hlines, <- app_assoc.
Qed.

(** X5: with no match [export_season] writes the file of one line
    terminator and then raises: the summary looks for the column [data],
    which the frame of no match does not have.  The exception is a
    [KeyError], logged as a failed export. *)
Theorem export_season_of_no_match_raises `{Externals} `{Environment}
    (self : CBF.CBFDataExporter) (year : Z) (dir : pystr) (w : World)
    (cid : json) (resp : Response) :
  files w !! dir = None →
  CBF.get_competition_id self year = Ok cid →
  http_get (CBF.matches_url self cid) (CBF.headers self) = Ok resp →
  ¬ (400 ≤ status_code resp < 600)%Z →
  json_body resp = Ok (JList []) →
  CBF.export_season self year dir w
  = (mkWorld (<[CBF.export_path year dir := [LF]]> (files w)) ({[dir]} ∪ dirs w)
       (out w ++ [LogInfo (FetchingCompetitionId year); LogInfo FetchingMatches;
                  LogInfo (Retrieved 0); LogInfo ProcessingMatches;
                  LogInfo (Exported (CBF.export_path year dir));
                  LogInfo SummaryHeader; LogInfo (TotalMatches 0);
                  LogError (ExportFailed (KeyError (py "data")))]),
     Err (KeyError (py "data"))).
Proof.
  intros Hdir Hcid Hget Hst Hbody.
  unfold CBF.export_season, try_except.
  unfold mbind, prog_bind, makedirs, emit, lift, raise, CBF.get_matches.
  rewrite Hdir. cbn [files dirs out].
  unfold mbind, prog_bind, lift, emit, mret, prog_ret. cbn [files dirs out].
  rewrite Hcid, Hget. unfold raise_for_status.
  rewrite bool_decide_eq_false_2 by done. rewrite Hbody.
  cbn [len length Z.of_nat files dirs out].
  change (CBF.process_matches (JList [])) with (Ok (pd_DataFrame [])).
  cbn beta iota. unfold to_csv. rewrite write_text_no_record. cbn [files dirs out bom app].
  rewrite summary_without_data by (by apply not_elem_of_nil).
  unfold logged. cbn [files dirs out is_request_exception rows pd_DataFrame length
                      fmap list_fmap Z.of_nat].
  by rewrite <- !app_assoc.
Qed.


(** X7: [main] never raises: it prints the two lines of success after an
    export that returns, and the line of the error after one that raises. *)
Theorem main_never_raises `{Externals} `{Environment} (w : World) :
  ∃ w1, (∃ p, CBF.export_season (CBF.__init__ CBF.API_KEY) 2023 (py "exports") w
              = (w1, Ok p)
              ∧ CBF.main w
                = (logged w1 [Print ExportCompleted; Print (FileSavedTo p)], Ok ()))
        ∨ (∃ e, CBF.export_season (CBF.__init__ CBF.API_KEY) 2023 (py "exports") w
                = (w1, Err e)
                ∧ CBF.main w = (logged w1 [Print (ErrorDuringExport e)], Ok ())).
Proof.
  unfold CBF.main, try_except, mbind, prog_bind, emit, logged.
  destruct (CBF.export_season _ _ _ w) as [w1 [p|e]]; exists w1.
  - left. exists p. split; [done|]. cbn [files dirs out]. by rewrite <- app_assoc.
  - right. by exists e.
Qed.

(** ** The Resolver, on any listing *)

(** X8: an id that [get_competition_id] returns is the [id] of a
    competition of the listing that meets the three conditions, and no
    competition before it in the listing meets them: nothing is assumed of
    the listing.  And when the listing was received, the not-found
    [ValueError] means that no competition of the listing meets them. *)
Theorem resolver_returns_only_matching_ids `{Externals} `{Environment}
    (self : CBF.CBFDataExporter) (year : Z) :
  (∀ id,
     CBF.get_competition_id self year = Ok id →
     ∃ resp listing before c after,
       http_get (CBF.base_url self ++ py "/competitions") (CBF.headers self) = Ok resp
       ∧ ¬ (400 ≤ status_code resp < 600)%Z
       ∧ json_body resp = Ok listing
       ∧ iterate listing = Ok (before ++ c :: after)
       ∧ Forall (λ c', ¬ meets_conditions year c') before
       ∧ meets_conditions year c
       ∧ getitem c (py "id") = Ok id)
  ∧ (∀ resp listing comps msg,
       http_get (CBF.base_url self ++ py "/competitions") (CBF.headers self) = Ok resp →
       json_body resp = Ok listing →
       iterate listing = Ok comps →
       CBF.get_competition_id self year = Err (ValueError msg) →
       msg = py "Competition not found for year " ++ str_of_Z year
       ∧ Forall (λ c, ¬ meets_conditions year c) comps).
Proof.
  split.
  - intros id. unfold CBF.get_competition_id.
    destruct (http_get _ _) as [resp|e] eqn:Hget; [|done]. simpl.
    unfold raise_for_status. case_bool_decide as Hst; [done|]. simpl.
    destruct (json_body resp) as [listing|e] eqn:Hbody; [|done]. simpl.
    destruct (iterate listing) as [comps|e] eqn:Hcomps; [|done]. simpl.
    intros (before & c & after & -> & Hbefore & Hc & Hid)%find_competition_Ok_inv.
    by exists resp, listing, before, c, after.
  - intros resp listing comps msg Hget Hbody Hcomps.
    unfold CBF.get_competition_id. rewrite Hget. simpl.
    unfold raise_for_status. case_bool_decide as Hst; [done|]. simpl.
    rewrite Hbody. simpl. rewrite Hcomps. simpl.
    apply find_competition_not_found_inv.
Qed.

(** X9: the loop of [get_competition_id] passes over a competition on its
    name alone when the name lacks the keyword, on its series when that
    is not "A", on its season when that is not the year: the fields after
    the one that decides, [id] among them, are not read and may be
    missing. *)
Theorem resolver_skips_without_reading_further `{Externals}
    (year : Z) (c : json) (rest : list json) (name : pystr) :
  getitem c (py "name") = Ok (JStr name) →
  ¬ contains (str_lower name) (py "brasileiro")
  ∨ (∃ series, getitem c (py "series") = Ok series ∧ series ≠ JStr (py "A"))
  ∨ (getitem c (py "series") = Ok (JStr (py "A"))
     ∧ ∃ season, getitem c (py "season") = Ok season
                 ∧ season ≠ JStr (str_of_Z year)) →
  CBF.find_competition year (c :: rest) = CBF.find_competition year rest.
Proof.
  intros Hname Hskip.
  assert (Htest : CBF.is_serie_a year c = Ok false); [|by simpl; rewrite Htest].
  unfold CBF.is_serie_a. rewrite Hname. simpl.
  case_bool_decide as Hfind; [|done]. apply str_find_spec in Hfind.
  destruct Hskip as [Hno|[(series & Hseries & Hne)|(Hseries & season & Hseason & Hne)]].
  - done.
  - rewrite Hseries. simpl. destruct (eq_str series (py "A")) eqn:Ha; [|done].
    by apply eq_str_spec in Ha.
  - rewrite Hseries. unfold mbind at 1, result_bind. cbv beta iota.
    rewrite (proj2 (eq_str_spec _ _) eq_refl).
    rewrite Hseason. unfold mbind, result_bind. cbv beta iota.
    destruct (eq_str season (str_of_Z year)) eqn:Hy; [|done].
    by apply eq_str_spec in Hy.
Qed.

(** X10: when the Resolver raises, [export_season] stops there: the
    directory has been made, the log holds the first line and the error
    line of the exception, no file is written and the exception is raised
    again. *)
Theorem failed_resolution_stops_the_export `{Externals} `{Environment}
    (self : CBF.CBFDataExporter) (year : Z) (dir : pystr) (w : World) (e : exn) :
  files w !! dir = None →
  CBF.get_competition_id self year = Err e →
  CBF.export_season self year dir w
  = (mkWorld (files w) ({[dir]} ∪ dirs w)
       (out w ++ [LogInfo (FetchingCompetitionId year);
                  LogError (if is_request_exception e
                            then ApiRequestFailed e else ExportFailed e)]),
     Err e).
Proof.
  intros Hdir Hcid. unfold CBF.export_season, try_except.
  unfold mbind, prog_bind, makedirs, emit, lift, raise. rewrite Hdir.
  cbn [files dirs out]. rewrite Hcid.
  destruct (is_request_exception e); cbn [files dirs out]; by rewrite <- app_assoc.
Qed.

(** X11: [get_matches] returns the decoded body as it is, after logging
    its length; when it raises (transport, 4xx or 5xx status, body that is
    not JSON, body without a length) it has logged nothing and the world
    is as it was. *)
Theorem get_matches_logs_only_on_success `{Externals} `{Environment}
    (self : CBF.CBFDataExporter) (cid : json) (w : World) :
  (∀ resp matches n,
     http_get (CBF.matches_url self cid) (CBF.headers self) = Ok resp →
     ¬ (400 ≤ status_code resp < 600)%Z →
     json_body resp = Ok matches →
     len matches = Ok n →
     CBF.get_matches self cid w = (logged w [LogInfo (Retrieved n)], Ok matches))
  ∧ (∀ w' e, CBF.get_matches self cid w = (w', Err e) → w' = w)
  ∧ (∀ resp matches,
       http_get (CBF.matches_url self cid) (CBF.headers self) = Ok resp →
       json_body resp = Ok matches →
       matches = JNull ∨ (∃ b, matches = JBool b) ∨ (∃ k, matches = JInt k) →
       ∃ e, CBF.get_matches self cid w = (w, Err e)).
Proof.
  unfold CBF.get_matches, mbind, prog_bind, lift, emit, mret, prog_ret, logged.
  split_and!.
  - intros resp matches n -> Hst -> ->. unfold raise_for_status.
    by rewrite bool_decide_eq_false_2.
  - intros w' e. destruct (http_get _ _) as [resp|e1]; [|by intros [= <- _]].
    destruct (raise_for_status resp) as [[]|e1]; [|by intros [= <- _]].
    destruct (json_body resp) as [matches|e1]; [|by intros [= <- _]].
    destruct (len matches) as [n|e1]; [done|by intros [= <- _]].
  - intros resp matches -> ->. destruct (raise_for_status resp) as [[]|e1]; [|by eexists].
    intros [->|[[b ->]|[k ->]]]; by eexists.
Qed.

(** ** The Mappers, on any input *)

Lemma for_each_ext_in {A B} (f g : A → result B) l :
  (∀ x, x ∈ l → f x = g x) → for_each f l = for_each g l.
Proof.
  induction l as [|x l IH]; intros Hfg; simpl; [done|].
  rewrite Hfg by by left. rewrite IH; [done|]. intros y Hy. apply Hfg. by right.
Qed.

Lemma for_each_first_Err {A B} (f : A → result B) before x after e :
  Forall (λ y, ∃ b, f y = Ok b) before → f x = Err e →
  for_each f (before ++ x :: after) = Err e.
Proof.
  intros Hbefore Hx. induction Hbefore as [|y before [b Hy] _ IH]; simpl.
  - by rewrite Hx.
  - by rewrite Hy, IH.
Qed.

(** A mapper reads its record through the first key of each path only. *)
Lemma flatten_reads_keys table (ks : list pystr) m m' :
  Forall (λ f, ∃ k path, fpath f = k :: path ∧ k ∈ ks) table →
  (∀ k, k ∈ ks → getitem m k = getitem m' k) →
  flatten table m = flatten table m'.
Proof.
  intros Htable Hsame. unfold flatten. apply for_each_ext_in. intros f Hf.
  rewrite Forall_forall in Htable. destruct (Htable f Hf) as (k & path & Hpath & Hk).
  unfold extract. rewrite Hpath. simpl. by rewrite (Hsame k Hk).
Qed.

Lemma cbf_table_keys :
  Forall (λ f, ∃ k path, fpath f = k :: path ∧ k ∈ cbf_keys) cbf_table.
Proof.
  unfold cbf_table, cbf_keys.
  repeat (apply Forall_cons_2; [eexists _, _; split; [reflexivity|set_solver]|]).
  apply Forall_nil_2.
Qed.

Lemma script_table_keys :
  Forall (λ f, ∃ k path, fpath f = k :: path ∧ k ∈ script_keys) script_table.
Proof.
  unfold script_table, script_keys.
  repeat (apply Forall_cons_2; [eexists _, _; split; [reflexivity|set_solver]|]).
  apply Forall_nil_2.
Qed.

(** X12: each mapper reads its record through a fixed set of keys and
    nothing else: two records that agree on these keys give the same
    result, be it a flat record or an exception. *)
Theorem mappers_read_only_their_keys (m m' : json) :
  ((∀ k, k ∈ [py "date"; py "round"; py "home_team"; py "away_team";
              py "home_score"; py "away_score"; py "stadium"; py "referee";
              py "attendance"; py "revenue"] →
         getitem m k = getitem m' k) →
   CBF.process_match m = CBF.process_match m')
  ∧ ((∀ k, k ∈ [py "fixture"; py "teams"; py "goals"] →
           getitem m k = getitem m' k) →
     Script.processar_jogo m = Script.processar_jogo m').
Proof.
  split; intros Hsame.
  - rewrite !process_match_flatten.
    by apply (flatten_reads_keys cbf_table cbf_keys); [apply cbf_table_keys|].
  - rewrite !processar_jogo_flatten.
    by apply (flatten_reads_keys script_table script_keys); [apply script_table_keys|].
Qed.

(** X13: a mapper stops at the first record that it cannot flatten and
    raises the exception of that record; the records after it are not
    looked at and may be anything. *)
Theorem mappers_raise_at_the_first_bad_record
    (before : list json) (m : json) (after : list json) (e : exn) :
  (Forall (complete cbf_table) before →
   CBF.process_match m = Err e →
   CBF.processed_matches (JList (before ++ m :: after)) = Err e
   ∧ CBF.process_matches (JList (before ++ m :: after)) = Err e)
  ∧ (Forall (complete script_table) before →
     Script.processar_jogo m = Err e →
     Script.lista_jogos (JList (before ++ m :: after)) = Err e).
Proof.
  split; intros Hbefore Hm.
  - assert (CBF.processed_matches (JList (before ++ m :: after)) = Err e) as Hrun.
    { rewrite processed_matches_list. apply for_each_first_Err.
      - eapply Forall_impl; [exact Hbefore|]. apply flatten_total.
      - by rewrite <- process_match_flatten. }
    split; [done|]. unfold CBF.process_matches. by rewrite Hrun.
  - rewrite lista_jogos_list. apply for_each_first_Err.
    + eapply Forall_impl; [exact Hbefore|]. apply flatten_total.
    + by rewrite <- processar_jogo_flatten.
Qed.

(** The first variant stores the values as they are. *)
Lemma cbf_table_copies f v : f ∈ cbf_table → fconv f v = Ok v.
Proof.
  unfold cbf_table. intros Hf.
  repeat (apply elem_of_cons in Hf as [-> | Hf]; [done|]).
  by apply elem_of_nil in Hf.
Qed.

(** X14: within a match of the first variant the exception is the one of
    the first field, in the order of the source, whose value cannot be
    read; the fields after it are not read. *)
Theorem process_match_raises_at_the_first_bad_field
    (m : json) (fields_before : list field) (f : field) (fields_after : list field)
    (e : exn) :
  cbf_table = fields_before ++ f :: fields_after →
  Forall (λ g, ∃ v, lookup_path m (fpath g) = Ok v) fields_before →
  lookup_path m (fpath f) = Err e →
  CBF.process_match m = Err e.
Proof.
  intros Htable Hbefore Hf. rewrite process_match_flatten. unfold flatten.
  rewrite Htable. apply for_each_first_Err.
  - apply Forall_forall. intros g Hg. rewrite Forall_forall in Hbefore.
    destruct (Hbefore g Hg) as [v Hv]. exists (fname g, v). unfold extract.
    rewrite Hv. simpl. rewrite cbf_table_copies; [done|].
    rewrite Htable. apply elem_of_app. by left.
  - unfold extract. by rewrite Hf.
Qed.

(** X15: a body that is not a list is not refused as such: [for] runs
    through it as Python does.  [None], a number or a boolean is not
    iterable; a string or an object that is not empty yields strings,
    which have no key: in all these cases a [TypeError] is raised.  An
    empty string or an empty object counts as no match. *)
Theorem mappers_on_a_body_that_is_not_a_list (v : json) :
  (∀ l, v ≠ JList l) →
  (v = JStr [] ∨ v = JDict []) ∧ CBF.processed_matches v = Ok []
                               ∧ Script.lista_jogos v = Ok []
  ∨ v ≠ JStr [] ∧ v ≠ JDict []
    ∧ CBF.processed_matches v = Err TypeError
    ∧ Script.lista_jogos v = Err TypeError.
Proof.
  intros Hv. destruct v as [| | |s|l|d].
  - right. by split_and!.
  - right. by split_and!.
  - right. by split_and!.
  - destruct s as [|c s]; [left; by split_and!; [left|..]|right; by split_and!].
  - by destruct (Hv l).
  - destruct d as [|[k x] d]; [left; by split_and!; [right|..]|right; by split_and!].
Qed.

(** ** The second variant, on any answer *)

Section ObterAny.
Context `{Externals} `{Environment}.

Ltac run_obter :=
  unfold Script.obter_jogos_brasileirao, mbind, prog_bind, mret, prog_ret, lift, emit;
  cbn [files dirs out].

(** X16: when the answer has status 200 but one fixture does not provide
    every field, [obter_jogos_brasileirao] raises the exception of the
    Mapper and leaves the world exactly as it found it: nothing is
    printed and no file is written, not even for the fixtures before. *)
Theorem obter_jogos_incomplete_fixture_writes_nothing
    (ano : Z) (w : World) (resp : Response) (body : json) (jogos : list json) :
  http_get (Script.fixtures_url ano) Script.fixtures_headers = Ok resp →
  status_code resp = 200%Z →
  json_body resp = Ok body →
  dict_method_get body (py "response") (JList []) = Ok (JList jogos) →
  Exists (λ jogo, ¬ complete script_table jogo) jogos →
  ∃ e, Script.lista_jogos (JList jogos) = Err e
       ∧ Script.obter_jogos_brasileirao ano w = (w, Err e).
Proof.
  intros Hget Hst Hbody Hjogos Hlack.
  assert (∃ e, Script.lista_jogos (JList jogos) = Err e) as [e He].
  { rewrite lista_jogos_list. apply for_each_fails.
    eapply Exists_impl; [exact Hlack|]. intros jogo. apply flatten_incomplete. }
  exists e. split; [done|]. run_obter. rewrite Hget. cbv beta iota.
  case_bool_decide; [done|]. rewrite Hbody. cbv beta iota.
  rewrite Hjogos. cbv beta iota. by rewrite He.
Qed.

(** X17: answers that hold no list of fixtures.  An exception of the
    transport or of the decoding of the body is raised as it is; a body
    that is not an object raises [AttributeError]; a [response] that is
    [None], a number or a boolean raises [TypeError]; in all these cases
    the world is as it was.  But an object without the key [response] is
    taken for an empty list: the file of the mark and one line terminator
    is written and success is printed. *)
Theorem obter_jogos_without_a_fixture_list (ano : Z) (w : World) :
  (∀ e,
     http_get (Script.fixtures_url ano) Script.fixtures_headers = Err e →
     Script.obter_jogos_brasileirao ano w = (w, Err e))
  ∧ (∀ resp,
       http_get (Script.fixtures_url ano) Script.fixtures_headers = Ok resp →
       status_code resp = 200%Z →
       (∀ e, json_body resp = Err e →
             Script.obter_jogos_brasileirao ano w = (w, Err e))
       ∧ (∀ body, json_body resp = Ok body → (∀ d, body ≠ JDict d) →
                  Script.obter_jogos_brasileirao ano w = (w, Err AttributeError))
       ∧ (∀ d x, json_body resp = Ok (JDict d) →
                 dict_get d (py "response") = Some x →
                 x = JNull ∨ (∃ b, x = JBool b) ∨ (∃ n, x = JInt n) →
                 Script.obter_jogos_brasileirao ano w = (w, Err TypeError))
       ∧ (∀ d, json_body resp = Ok (JDict d) →
               dict_get d (py "response") = None →
               Script.obter_jogos_brasileirao ano w
               = (mkWorld (<[Script.csv_path ano := [0xEF; 0xBB; 0xBF; LF]%N]> (files w))
                    (dirs w) (out w ++ [Print (ArquivoCriado ano)]),
                  Ok JNull))).
Proof.
  split.
  - intros e Hget. run_obter. by rewrite Hget.
  - intros resp Hget Hst. split_and!.
    + intros e Hbody. run_obter. rewrite Hget. cbv beta iota.
      case_bool_decide; [done|]. by rewrite Hbody.
    + intros body Hbody Hnot. run_obter. rewrite Hget. cbv beta iota.
      case_bool_decide; [done|]. rewrite Hbody. cbv beta iota.
      destruct body; try done. by destruct (Hnot d).
    + intros d x Hbody Hx Hshape. run_obter. rewrite Hget. cbv beta iota.
      case_bool_decide; [done|]. rewrite Hbody. cbv beta iota.
      unfold dict_method_get. rewrite Hx. simpl.
      by destruct Hshape as [->|[[b ->]|[n ->]]].
    + intros d Hbody Hx.
      rewrite (obter_jogos_200 ano w resp (JDict d) (JList []) []); [|try done..].
      * by rewrite write_text_no_record.
      * unfold dict_method_get. by rewrite Hx.
Qed.

(** What [obter_jogos_brasileirao] does to the files does not depend on
    the world that it starts from: it leaves them, or it puts the same
    bytes at the path of the year. *)
Lemma obter_jogos_files ano :
  (∀ w, files (Script.obter_jogos_brasileirao ano w).1 = files w)
  ∨ ∃ bytes, ∀ w, files (Script.obter_jogos_brasileirao ano w).1
                  = <[Script.csv_path ano := bytes]> (files w).
Proof.
  destruct (http_get (Script.fixtures_url ano) Script.fixtures_headers)
    as [resp|e] eqn:Hget.
  2: { left. intros w. run_obter. by rewrite Hget. }
  destruct (decide (status_code resp = 200%Z)) as [Hst|Hst].
  2: { left. intros w. by rewrite (obter_jogos_not_200 ano w resp). }
  destruct (json_body resp) as [body|e] eqn:Hbody.
  2: { left. intros w. run_obter. rewrite Hget. cbv beta iota.
       case_bool_decide; [done|]. by rewrite Hbody. }
  destruct (dict_method_get body (py "response") (JList [])) as [jogos|e] eqn:Hjogos.
  2: { left. intros w. run_obter. rewrite Hget. cbv beta iota.
       case_bool_decide; [done|]. rewrite Hbody. cbv beta iota. by rewrite Hjogos. }
  destruct (Script.lista_jogos jogos) as [records|e] eqn:Hrecords.
  2: { left. intros w. run_obter. rewrite Hget. cbv beta iota.
       case_bool_decide; [done|]. rewrite Hbody. cbv beta iota.
       rewrite Hjogos. cbv beta iota. by rewrite Hrecords. }
  right. exists (write_text UTF8_SIG (csv_lines (pd_DataFrame records))).1.
  intros w. rewrite (obter_jogos_200 ano w resp body jogos records) by done.
  cbv zeta. by destruct (write_text _ _) as [bytes [[]|e]].
Qed.

Lemma obter_jogos_result ano w1 w2 :
  (Script.obter_jogos_brasileirao ano w1).2 = (Script.obter_jogos_brasileirao ano w2).2.
Proof.
  run_obter. destruct (http_get _ _) as [resp|e]; [|done].
  case_bool_decide; [done|].
  destruct (json_body resp) as [body|e]; [|done].
  destruct (dict_method_get _ _ _) as [jogos|e]; [|done].
  destruct (Script.lista_jogos jogos) as [records|e]; [|done].
  unfold to_csv. by destruct (write_text _ _) as [bytes [[]|e]].
Qed.

(** X18: [obter_jogos_brasileirao] touches no file but the one of the
    year, which it overwrites, and no directory; run again with the same
    answer of the network it leaves the same files and has the same
    outcome. *)
Theorem obter_jogos_overwrites_its_file_only (ano : Z) (w : World) :
  let w1 := (Script.obter_jogos_brasileirao ano w).1 in
  (∀ p, p ≠ Script.csv_path ano → files w1 !! p = files w !! p)
  ∧ dirs w1 = dirs w
  ∧ files (Script.obter_jogos_brasileirao ano w1).1 = files w1
  ∧ (Script.obter_jogos_brasileirao ano w1).2 = (Script.obter_jogos_brasileirao ano w).2.
Proof.
  intros w1. split_and!.
  - intros p Hp. subst w1.
    destruct (obter_jogos_files ano) as [Hsame|[bytes Hput]].
    + by rewrite Hsame.
    + by rewrite Hput, lookup_insert_ne.
  - subst w1. run_obter. destruct (http_get _ _) as [resp|e]; [|done].
    case_bool_decide; [done|].
    destruct (json_body resp) as [body|e]; [|done].
    destruct (dict_method_get _ _ _) as [jogos|e]; [|done].
    destruct (Script.lista_jogos jogos) as [records|e]; [|done].
    unfold to_csv. by destruct (write_text _ _) as [bytes [[]|e]].
  - destruct (obter_jogos_files ano) as [Hsame|[bytes Hput]].
    + by rewrite Hsame.
    + subst w1. by rewrite !Hput, insert_insert_eq.
  - apply obter_jogos_result.
Qed.
End ObterAny.

(** ** The names of the files *)

Lemma py_inj s t : py s = py t → s = t.
Proof.
  unfold py. revert t. induction s as [|a s IH]; intros [|b t]; simpl; try done.
  intros [= Hab Hst]. f_equal; [|by apply IH].
  apply (f_equal ascii_of_N) in Hab. by rewrite !ascii_N_embedding in Hab.
Qed.

Lemma str_of_Z_inj a b : str_of_Z a = str_of_Z b → a = b.
Proof.
  unfold str_of_Z. intros Hab%py_inj.
  assert (∀ z, Z.to_int z ≠ Decimal.Pos Decimal.Nil
               ∧ Z.to_int z ≠ Decimal.Neg Decimal.Nil) as Hnil.
  { intros [|p|p]; split; try done; intros [= Hp];
      by apply DecimalPos.Unsigned.to_uint_nonnil in Hp. }
  apply DecimalZ.to_int_inj.
  assert (Some (Z.to_int a) = Some (Z.to_int b)) as [= Hint]; [|done].
  destruct (Hnil a), (Hnil b).
  rewrite <- (NilZero.isi (Z.to_int a)), <- (NilZero.isi (Z.to_int b)) by done.
  by rewrite Hab.
Qed.

Lemma path_join_inj dir a b : path_join dir a = path_join dir b → a = b.
Proof.
  unfold path_join. case_bool_decide; [done|].
  destruct (endswith dir (py "/")).
  - apply app_inv_head.
  - intros Hab%app_inv_head. by apply app_inv_head in Hab.
Qed.

Lemma csv_path_inj a b : Script.csv_path a = Script.csv_path b → a = b.
Proof.
  unfold Script.csv_path. intros Hab%app_inv_head%app_inv_tail.
  by apply str_of_Z_inj.
Qed.

Lemma export_path_inj `{Environment} dir a b :
  CBF.export_path a dir = CBF.export_path b dir → a = b.
Proof.
  unfold CBF.export_path. intros Hab%path_join_inj%app_inv_head.
  rewrite !(app_assoc (str_of_Z _)) in Hab. rewrite !(app_assoc _ now_stamp) in Hab.
  apply app_inv_tail in Hab. apply app_inv_tail in Hab. apply app_inv_tail in Hab.
  by apply str_of_Z_inj.
Qed.

(** X19: the seasons do not share a file: the export of one year leaves
    the file of every other year as it was, in the second variant and, for
    one reading of the clock and one directory, in the first. *)
Theorem seasons_do_not_share_a_file `{Externals} `{Environment}
    (self : CBF.CBFDataExporter) (dir : pystr) (year other : Z) (w : World) :
  year ≠ other →
  files (Script.obter_jogos_brasileirao year w).1 !! Script.csv_path other
  = files w !! Script.csv_path other
  ∧ files (CBF.export_season self year dir w).1 !! CBF.export_path other dir
    = files w !! CBF.export_path other dir.
Proof.
  intros Hne. split.
  - destruct (obter_jogos_files year) as [Hsame|[bytes Hput]].
    + by rewrite Hsame.
    + rewrite Hput, lookup_insert_ne; [done|]. by intros ?%csv_path_inj.
  - destruct (respects_export_season self year dir w) as (Hfiles & _).
    apply Hfiles. intros ?%export_path_inj. by apply Hne.
Qed.

(** ** The properties of the runs at concrete inputs *)

(** One complete match, exported for 2023 into an empty world. *)
Lemma export_season_returns_the_written_file_witness :
  ∃ w' p bytes,
    @CBF.export_season sample_externals (cbf_network ok_listing one_match)
      sample_exporter 2023 (py "exports") empty_world = (w', Ok p)
    ∧ p = @CBF.export_path (cbf_network ok_listing one_match) 2023 (py "exports")
    ∧ dirs w' = {[py "exports"]} ∪ dirs empty_world
    ∧ files w' = <[p := bytes]> (files empty_world).
Proof.
  destruct (@CBF.export_season sample_externals (cbf_network ok_listing one_match)
              sample_exporter 2023 (py "exports") empty_world)
    as [w' [p|e]] eqn:Hrun; [|by vm_compute in Hrun].
  destruct (@export_season_returns_the_written_file sample_externals
              (cbf_network ok_listing one_match) sample_exporter 2023%Z (py "exports")
              empty_world w' p Hrun)
    as (Hp & _ & Hdirs & df & bytes & _ & _ & Hfiles).
  exists w', p, bytes. split; [reflexivity|]. split; [exact Hp|].
  split; [exact Hdirs|exact Hfiles].
Defined.

(** A 404 for the matches: the last line of the log is the failed request. *)
Lemma export_season_logs_what_it_raises_witness :
  ∃ w' e lines,
    @CBF.export_season sample_externals (cbf_network ok_listing not_found)
      sample_exporter 2023 (py "exports") empty_world = (w', Err e)
    ∧ out w' = out empty_world ++ lines
               ++ [LogError (if is_request_exception e
                             then ApiRequestFailed e else ExportFailed e)].
Proof.
  destruct (@CBF.export_season sample_externals (cbf_network ok_listing not_found)
              sample_exporter 2023 (py "exports") empty_world)
    as [w' [p|e]] eqn:Hrun; [by vm_compute in Hrun|].
  destruct (@export_season_logs_what_it_raises sample_externals
              (cbf_network ok_listing not_found) sample_exporter 2023%Z (py "exports")
              empty_world w' e Hrun) as [lines Hlines].
  exists w', e, lines. split; [reflexivity|exact Hlines].
Defined.

(** An empty list of matches for 2023. *)
Lemma export_season_of_no_match_raises_witness :
  @CBF.export_season sample_externals (cbf_network ok_listing no_match)
    sample_exporter 2023 (py "exports") empty_world
  = (mkWorld (<[@CBF.export_path (cbf_network ok_listing no_match) 2023 (py "exports")
                := [LF]]> (files empty_world))
       ({[py "exports"]} ∪ dirs empty_world)
       (out empty_world
        ++ [LogInfo (FetchingCompetitionId 2023); LogInfo FetchingMatches;
            LogInfo (Retrieved 0); LogInfo ProcessingMatches;
            LogInfo (Exported (@CBF.export_path (cbf_network ok_listing no_match)
                                 2023 (py "exports")));
            LogInfo SummaryHeader; LogInfo (TotalMatches 0);
            LogError (ExportFailed (KeyError (py "data")))]),
     Err (KeyError (py "data"))).
Proof.
  apply (@export_season_of_no_match_raises sample_externals
           (cbf_network ok_listing no_match) sample_exporter 2023%Z (py "exports")
           empty_world (JStr (py "br23")) no_match).
  - reflexivity.
  - by vm_compute.
  - by vm_compute.
  - simpl. lia.
  - reflexivity.
Defined.


(** The listing of 2022 and 2023: the id of 2023 comes from a competition
    that meets the conditions; for 2021 there is none. *)
Lemma resolver_returns_only_matching_ids_witness :
  (∃ id c,
     @CBF.get_competition_id sample_externals (cbf_network ok_listing ok_listing)
       sample_exporter 2023 = Ok id
     ∧ @meets_conditions sample_externals 2023 c
     ∧ getitem c (py "id") = Ok id)
  ∧ Forall (λ c, ¬ @meets_conditions sample_externals 2021 c)
      [serie_a (py "2022") (py "br22"); serie_a (py "2023") (py "br23")].
Proof.
  destruct (@resolver_returns_only_matching_ids sample_externals
              (cbf_network ok_listing ok_listing) sample_exporter 2023%Z) as [Hfound _].
  destruct (@resolver_returns_only_matching_ids sample_externals
              (cbf_network ok_listing ok_listing) sample_exporter 2021%Z) as [_ Hnone].
  split.
  - destruct (Hfound (JStr (py "br23")))
      as (resp & l & before & c & after & _ & _ & _ & _ & _ & Hc & Hid);
      [by vm_compute|].
    by exists (JStr (py "br23")), c.
  - apply (Hnone ok_listing listing
             [serie_a (py "2022") (py "br22"); serie_a (py "2023") (py "br23")]
             (py "Competition not found for year 2021")).
    + by vm_compute.
    + reflexivity.
    + reflexivity.
    + by vm_compute.
Defined.

(** The season 2022 is passed over for 2023 on its season. *)
Lemma resolver_skips_without_reading_further_witness :
  @CBF.find_competition sample_externals 2023
    [JDict [(py "name", JStr (py "Campeonato Brasileiro"));
            (py "series", JStr (py "A")); (py "season", JStr (py "2022"))];
     serie_a (py "2023") (py "br23")]
  = @CBF.find_competition sample_externals 2023 [serie_a (py "2023") (py "br23")].
Proof.
  apply (@resolver_skips_without_reading_further sample_externals 2023%Z
           (JDict [(py "name", JStr (py "Campeonato Brasileiro"));
                   (py "series", JStr (py "A")); (py "season", JStr (py "2022"))])
           [serie_a (py "2023") (py "br23")] (py "Campeonato Brasileiro")).
  - reflexivity.
  - right. right. split; [reflexivity|].
    exists (JStr (py "2022")). split; [reflexivity|]. by vm_compute.
Defined.

(** The listing is answered with a 500. *)
Lemma failed_resolution_stops_the_export_witness :
  @CBF.export_season sample_externals
    (cbf_network (mkResponse 500 (Err JSONDecodeError)) one_match)
    sample_exporter 2023 (py "exports") empty_world
  = (mkWorld (files empty_world) ({[py "exports"]} ∪ dirs empty_world)
       (out empty_world ++ [LogInfo (FetchingCompetitionId 2023);
                            LogError (ApiRequestFailed (HTTPError 500))]),
     Err (HTTPError 500)).
Proof.
  apply (@failed_resolution_stops_the_export sample_externals
           (cbf_network (mkResponse 500 (Err JSONDecodeError)) one_match)
           sample_exporter 2023%Z (py "exports") empty_world (HTTPError 500)).
  - reflexivity.
  - by vm_compute.
Defined.

(** One match is returned with one line of log; a body of [null] raises
    and logs nothing. *)
Lemma get_matches_logs_only_on_success_witness :
  @CBF.get_matches sample_externals (cbf_network ok_listing one_match)
    sample_exporter (JStr (py "br23")) empty_world
  = (logged empty_world [LogInfo (Retrieved 1)], Ok (JList [complete_match]))
  ∧ ∃ e, @CBF.get_matches sample_externals
           (cbf_network ok_listing (mkResponse 200 (Ok JNull)))
           sample_exporter (JStr (py "br23")) empty_world
         = (empty_world, Err e).
Proof.
  destruct (@get_matches_logs_only_on_success sample_externals
              (cbf_network ok_listing one_match) sample_exporter (JStr (py "br23"))
              empty_world) as (Hok & _ & _).
  destruct (@get_matches_logs_only_on_success sample_externals
              (cbf_network ok_listing (mkResponse 200 (Ok JNull))) sample_exporter
              (JStr (py "br23")) empty_world) as (_ & _ & Hnull).
  split.
  - apply (Hok one_match (JList [complete_match]) 1%Z).
    + by vm_compute.
    + simpl. lia.
    + reflexivity.
    + reflexivity.
  - apply (Hnull (mkResponse 200 (Ok JNull)) JNull).
    + by vm_compute.
    + reflexivity.
    + by left.
Defined.

(** An entry [weather] more in the match, an entry [league] more in the
    fixture: the records are the same. *)
Lemma mappers_read_only_their_keys_witness :
  CBF.process_match complete_match = CBF.process_match complete_match_with_weather
  ∧ Script.processar_jogo flamengo_palmeiras
    = Script.processar_jogo
        (JDict [(py "league", JInt 71); (py "fixture", JDict [(py "date", JStr (py "2023-04-15"));
                 (py "venue", JDict [(py "name", JStr (py "Maracan" ++ [227%N]))])]);
         (py "teams",
          JDict [(py "home", JDict [(py "name", JStr (py "Flamengo"))]);
                 (py "away", JDict [(py "name", JStr (py "Palmeiras"))])]);
         (py "goals", JDict [(py "home", JInt 2); (py "away", JInt 1)])]).
Proof.
  split.
  - apply (mappers_read_only_their_keys complete_match complete_match_with_weather).
    intros k Hk.
    repeat (apply elem_of_cons in Hk as [-> | Hk]; [reflexivity|]).
    by apply elem_of_nil in Hk.
  - apply (mappers_read_only_their_keys flamengo_palmeiras).
    intros k Hk.
    repeat (apply elem_of_cons in Hk as [-> | Hk]; [reflexivity|]).
    by apply elem_of_nil in Hk.
Defined.

(** The second of three matches has no [revenue]; the second of three
    fixtures is [null]. *)
Lemma mappers_raise_at_the_first_bad_record_witness :
  CBF.process_matches (JList [complete_match; match_missing_key; JNull])
  = Err (KeyError (py "revenue"))
  ∧ Script.lista_jogos (JList [flamengo_palmeiras; JNull; JInt 0]) = Err TypeError.
Proof.
  split.
  - apply (mappers_raise_at_the_first_bad_record [complete_match] match_missing_key
             [JNull] (KeyError (py "revenue"))).
    + constructor; [apply complete_match_is_complete|constructor].
    + reflexivity.
  - apply (mappers_raise_at_the_first_bad_record [flamengo_palmeiras] JNull
             [JInt 0] TypeError).
    + constructor; [apply flamengo_palmeiras_is_complete|constructor].
    + reflexivity.
Defined.

(** No referee and no [revenue]: the referee is read first. *)
Lemma process_match_raises_at_the_first_bad_field_witness :
  CBF.process_match match_without_revenue = Err TypeError.
Proof.
  apply (process_match_raises_at_the_first_bad_field match_without_revenue
           (take 9 cbf_table) (mkField (py "arbitro") [py "referee"; py "name"] Ok)
           (drop 10 cbf_table) TypeError).
  - reflexivity.
  - repeat (constructor; [by eexists|]). constructor.
  - reflexivity.
Defined.

(** The object of the second API handed to a mapper as if it were the list. *)
Lemma mappers_on_a_body_that_is_not_a_list_witness :
  CBF.processed_matches (JDict [(py "response", JList [])]) = Err TypeError
  ∧ Script.lista_jogos (JDict [(py "response", JList [])]) = Err TypeError.
Proof.
  destruct (mappers_on_a_body_that_is_not_a_list (JDict [(py "response", JList [])]))
    as [([Hs|Hd] & _)|(_ & _ & Hcbf & Hscript)].
  - done.
  - discriminate Hs.
  - discriminate Hd.
  - by split.
Defined.

(** The second of two fixtures is an empty object. *)
Lemma obter_jogos_incomplete_fixture_writes_nothing_witness :
  ∃ e, @Script.obter_jogos_brasileirao sample_externals
         (script_network
            (mkResponse 200
               (Ok (JDict [(py "response", JList [flamengo_palmeiras; JDict []])]))))
         2023 empty_world
       = (empty_world, Err e).
Proof.
  destruct (@obter_jogos_incomplete_fixture_writes_nothing sample_externals
              (script_network
                 (mkResponse 200
                    (Ok (JDict [(py "response", JList [flamengo_palmeiras; JDict []])]))))
              2023%Z empty_world
              (mkResponse 200
                 (Ok (JDict [(py "response", JList [flamengo_palmeiras; JDict []])])))
              (JDict [(py "response", JList [flamengo_palmeiras; JDict []])])
              [flamengo_palmeiras; JDict []])
    as (e & _ & Hrun).
  - reflexivity.
  - reflexivity.
  - reflexivity.
  - reflexivity.
  - apply Exists_cons_tl, Exists_cons_hd. intros Hc. unfold complete in Hc.
    rewrite Forall_lookup in Hc.
    destruct (Hc 0%nat _ eq_refl) as (v & x & Hv & _). by vm_compute in Hv.
  - by exists e.
Defined.

(** A body that is a list raises [AttributeError]; an object with an
    [error] entry only gives the file of the mark and one terminator. *)
Lemma obter_jogos_without_a_fixture_list_witness :
  @Script.obter_jogos_brasileirao sample_externals
    (script_network (mkResponse 200 (Ok (JList [])))) 2023 empty_world
  = (empty_world, Err AttributeError)
  ∧ @Script.obter_jogos_brasileirao sample_externals
      (script_network (mkResponse 200 (Ok (JDict [(py "errors", JStr (py "token"))]))))
      2023 empty_world
    = (mkWorld (<[Script.csv_path 2023 := [0xEF; 0xBB; 0xBF; LF]%N]> (files empty_world))
         (dirs empty_world) (out empty_world ++ [Print (ArquivoCriado 2023)]),
       Ok JNull).
Proof.
  destruct (@obter_jogos_without_a_fixture_list sample_externals
              (script_network (mkResponse 200 (Ok (JList [])))) 2023%Z empty_world)
    as (_ & Hlist).
  destruct (@obter_jogos_without_a_fixture_list sample_externals
              (script_network
                 (mkResponse 200 (Ok (JDict [(py "errors", JStr (py "token"))]))))
              2023%Z empty_world)
    as (_ & Hobject).
  split.
  - destruct (Hlist (mkResponse 200 (Ok (JList []))) eq_refl eq_refl)
      as (_ & Hattr & _).
    by apply (Hattr (JList [])).
  - destruct (Hobject (mkResponse 200 (Ok (JDict [(py "errors", JStr (py "token"))])))
                eq_refl eq_refl)
      as (_ & _ & _ & Hblank).
    by apply (Hblank [(py "errors", JStr (py "token"))]).
Defined.

(** The export of 2023 leaves the file of 2022 as it was. *)
Lemma seasons_do_not_share_a_file_witness :
  files (@Script.obter_jogos_brasileirao sample_externals
           (script_network
              (mkResponse 200 (Ok (JDict [(py "response", JList [flamengo_palmeiras])]))))
           2023 empty_world).1 !! Script.csv_path 2022
  = files empty_world !! Script.csv_path 2022
  ∧ files (@CBF.export_season sample_externals (cbf_network ok_listing one_match)
             sample_exporter 2023 (py "exports") empty_world).1
    !! @CBF.export_path (cbf_network ok_listing one_match) 2022 (py "exports")
    = files empty_world
      !! @CBF.export_path (cbf_network ok_listing one_match) 2022 (py "exports").
Proof.
  destruct (@seasons_do_not_share_a_file sample_externals
              (script_network
                 (mkResponse 200
                    (Ok (JDict [(py "response", JList [flamengo_palmeiras])]))))
              sample_exporter (py "exports") 2023%Z 2022%Z empty_world) as [Hscript _];
    [lia|].
  destruct (@seasons_do_not_share_a_file sample_externals
              (cbf_network ok_listing one_match)
              sample_exporter (py "exports") 2023%Z 2022%Z empty_world) as [_ Hcbf];
    [lia|].
  by split.
Defined.
